(** * atlasapi.atlas: the Atlas client and its pagination engine

    A shallow embedding of [atlasapi/atlas.py]: the resource operations that
    build a URI and hand it to the transport, and [AtlasPagination], the
    generator that walks a paginated "get all" endpoint page by page.

    Python integers are [Z]; a dictionary read at two keys only is a record
    with optional fields; a generator is its object, its frame and a [next]
    function; the transport is a log of the requests it was given together
    with an arbitrary answering function. *)

From Stdlib Require Import ZArith Lia Bool.
From stdpp Require Import base tactics option list strings pretty gmap.

Local Open Scope Z_scope.

(** ** Exceptions and results *)

(** The exception classes the module raises or lets through.  [Exception]
    stands for any other class (what the transport raises, for one). *)
Inductive exn : Type :=
| ErrPagination
| ErrPaginationLimits
| ErrConfirmationRequested (message : string)
| KeyError (key : string)
| IndexError
| ValueError
| OverflowError
| Exception (cls : string).

Inductive result (A : Type) : Type :=
| Returns (a : A)
| Raises (e : exn).
Arguments Returns {A} a.
Arguments Raises {A} e.

(** A computation over a world [W] that returns or raises. *)
Definition M (W A : Type) : Type := W -> result A * W.

Definition ret {W A} (a : A) : M W A := fun w => (Returns a, w).
Definition raise {W A} (e : exn) : M W A := fun w => (Raises e, w).
Definition bind {W A B} (c : M W A) (k : A -> M W B) : M W B :=
  fun w => match c w with
           | (Returns a, w') => k a w'
           | (Raises e, w') => (Raises e, w')
           end.

Notation "x <- c ;; k" := (bind c (fun x => k))
  (at level 100, c at next level, right associativity).
Notation "c ;;; k" := (bind c (fun _ => k))
  (at level 100, right associativity).

(** ** Payloads, transport, settings *)

(** The response payload of a "get all" call: a dictionary of which the
    module reads [totalCount] and [results]; a key that is absent is [None]. *)
Record Page (Item : Type) : Type := mkPage {
  totalCount : option Z;
  results : option (list Item)
}.
Arguments mkPage {Item} _ _.
Arguments totalCount {Item} _.
Arguments results {Item} _.

Inductive method : Type := GET | POST | PATCH | DELETE.

(** One call of the transport: verb, URL and the body sent with it. *)
Record request : Type := mkRequest {
  verb : method;
  url : string;
  body : option (gmap string string)
}.

(** [Network]: the transport collaborator.  What it answers is arbitrary: a
    function of the calls it has served so far and of the call at hand. *)
Record Network (Item : Type) : Type := mkNetwork {
  respond : list request -> request -> result (Page Item)
}.
Arguments mkNetwork {Item} _.
Arguments respond {Item} _ _ _.

(** The world of the resource layer: the calls the transport has recorded. *)
Definition calls : Type := list request.

Record Atlas (Item : Type) : Type := mkAtlas {
  group : string;
  network : Network Item
}.
Arguments mkAtlas {Item} _ _.
Arguments group {Item} _.
Arguments network {Item} _.

(** An argument of the [%] operator that fills a URI template. *)
Inductive fmt_arg : Type :=
| AStr (s : string)
| AInt (z : Z).

(** [Settings]: the constants of [atlasapi/settings.py], taken as given.
    [api_resources family operation] is the URI template and [percent] the
    [%] operator that fills it. *)
Class Settings : Type := mkSettings {
  BASE_URL : string;
  api_resources : string -> string -> string;
  percent : string -> list fmt_arg -> string;
  Settings_pageNum : Z;
  Settings_itemsPerPage : Z;
  itemsPerPageMin : Z;
  itemsPerPageMax : Z
}.

(** ** The pagination object and its generator *)

Record AtlasPagination (Item F : Type) : Type := mkAtlasPagination {
  atlas : Atlas Item;
  fetch : F;
  pageNum : Z;
  itemsPerPage : Z
}.
Arguments mkAtlasPagination {Item F} _ _ _ _.
Arguments atlas {Item F} _.
Arguments fetch {Item F} _.
Arguments pageNum {Item F} _.
Arguments itemsPerPage {Item F} _.

(** Anything that can stand in the [fetch] attribute: called with a page
    number and a page size, it returns a payload or raises, and may change
    the world [W]. *)
Class Callable (Item W F : Type) : Type :=
  call : F -> Z -> Z -> M W (Page Item).
Global Hint Mode Callable - - ! : typeclass_instances.

(** The frame of the generator [__iter__] returns.  It is suspended only at
    the [yield], where the live locals are the ones listed. *)
Inductive frame (Item : Type) : Type :=
| Created
| Suspended (pageNum total : Z) (results : list Item)
            (results_count index : nat)
| Closed.
Arguments Created {Item}.
Arguments Suspended {Item} _ _ _ _ _.
Arguments Closed {Item}.

Record generator (Item F : Type) : Type := mkGenerator {
  gi_self : AtlasPagination Item F;
  gi_frame : frame Item
}.
Arguments mkGenerator {Item F} _ _.
Arguments gi_self {Item F} _.
Arguments gi_frame {Item F} _.

(** What one [next] on the generator gives the caller.  [OutOfFuel] is the
    model's mark for a [next] that has not come back within its fuel. *)
Inductive pull (Item : Type) : Type :=
| Yield (x : Item)
| StopIteration
| Raise (e : exn)
| OutOfFuel.
Arguments Yield {Item} x.
Arguments StopIteration {Item}.
Arguments Raise {Item} e.
Arguments OutOfFuel {Item}.

Section Engine.
Context {Item W F : Type} `{!Callable Item W F}.

Definition AtlasPagination_init (a : Atlas Item) (f : F) (pageNum itemsPerPage : Z)
  : AtlasPagination Item F :=
  mkAtlasPagination a f pageNum itemsPerPage.

(** [while (index < results_count): result = results[index]; index += 1;
    yield result], entered or resumed with the given locals: it yields, or
    the loop is over ([None]). *)
Definition page_loop (pageNum total : Z) (results : list Item)
    (results_count index : nat) : option (pull Item * frame Item) :=
  if (index <? results_count)%nat then
    match results !! index with
    | Some result =>
        Some (Yield result,
              Suspended pageNum total results results_count (S index))
    | None => Some (Raise IndexError, Closed)
    end
  else None.

(** The outer [while] of [__iter__], from its test.  One unit of fuel is
    spent per page fetched. *)
Fixpoint fetch_loop (fuel : nat) (self : AtlasPagination Item F)
    (pageNum total : Z) (w : W) : pull Item * AtlasPagination Item F * frame Item * W :=
  if pageNum * itemsPerPage self - total <? itemsPerPage self then
    match fuel with
    | O => (OutOfFuel, self, Closed, w)
    | S fuel' =>
        match call (fetch self) pageNum (itemsPerPage self) w with
        | (Raises _, w') => (Raise ErrPagination, self, Closed, w')
        | (Returns details, w') =>
            match totalCount details with
            | None => (Raise (KeyError "totalCount"), self, Closed, w')
            | Some total' =>
                match results details with
                | None => (Raise (KeyError "results"), self, Closed, w')
                | Some results' =>
                    match page_loop pageNum total' results' (length results') 0 with
                    | Some (r, fr) => (r, self, fr, w')
                    | None => fetch_loop fuel' self (pageNum + 1) total' w'
                    end
                end
            end
        end
    end
  else (StopIteration, self, Closed, w).

Definition __iter__ (self : AtlasPagination Item F) : generator Item F :=
  mkGenerator self Created.

(** One [next(g)]: run the body from where the frame stands to the next
    [yield], to its end or to an exception. *)
Definition next (fuel : nat) (g : generator Item F) (w : W)
  : pull Item * generator Item F * W :=
  let self := gi_self g in
  let '(r, self', fr, w') :=
    match gi_frame g with
    | Created =>
        let pageNum := pageNum self in
        let total := pageNum * itemsPerPage self in
        fetch_loop fuel self pageNum total w
    | Suspended pageNum total results results_count index =>
        match page_loop pageNum total results results_count index with
        | Some (r, fr) => (r, self, fr, w)
        | None => fetch_loop fuel self (pageNum + 1) total w
        end
    | Closed => (StopIteration, self, Closed, w)
    end in
  (r, mkGenerator self' fr, w').

(** [g]'s next step is the outer loop's test, at page [p] with [total]:
    a generator just created, or one suspended behind the last item of its
    page. *)
Definition enters (g : generator Item F) (p total : Z) : Prop :=
  forall fuel w,
    next fuel g w
    = let '(r, s, fr, w') := fetch_loop fuel (gi_self g) p total w in
      (r, mkGenerator s fr, w').

(** [k] successive [next] calls, with what each gave. *)
Fixpoint pulls (k fuel : nat) (g : generator Item F) (w : W)
  : list (pull Item) * generator Item F * W :=
  match k with
  | O => ([], g, w)
  | S k' =>
      let '(r, g', w') := next fuel g w in
      let '(rs, g'', w'') := pulls k' fuel g' w' in
      (r :: rs, g'', w'')
  end.

End Engine.

(** ** Dates and times

    What [acknowledge_an_alert] and its two callers use of Python's
    [datetime] (an aware [datetime], [timedelta], [isoformat]) and of
    [dateutil.relativedelta], after CPython's [_pydatetime.py] and
    dateutil's [relativedelta.py]. *)

Inductive timezone : Type := timezone_utc.

Record datetime : Type := mkDatetime {
  year : Z;
  month : Z;
  day : Z;
  hour : Z;
  minute : Z;
  second : Z;
  microsecond : Z;
  tzinfo : option timezone
}.

Definition MINYEAR : Z := 1.
Definition MAXYEAR : Z := 9999.
Definition MAXORDINAL : Z := 3652059.

Definition DAYS_IN_MONTH : list Z :=
  [-1; 31; 28; 31; 30; 31; 30; 31; 31; 30; 31; 30; 31].
Definition DAYS_BEFORE_MONTH : list Z :=
  [-1; 0; 31; 59; 90; 120; 151; 181; 212; 243; 273; 304; 334].

(** [table[i]], for the indices the tables are read at. *)
Definition item (table : list Z) (i : Z) : Z := nth (Z.to_nat i) table 0.

Definition is_leap (year : Z) : bool :=
  (year mod 4 =? 0) && (negb (year mod 100 =? 0) || (year mod 400 =? 0)).

Definition days_before_year (year : Z) : Z :=
  let y := year - 1 in
  y * 365 + y / 4 - y / 100 + y / 400.

Definition days_in_month (year month : Z) : Z :=
  if (month =? 2) && is_leap year then 29 else item DAYS_IN_MONTH month.

Definition days_before_month (year month : Z) : Z :=
  item DAYS_BEFORE_MONTH month
  + (if (2 <? month) && is_leap year then 1 else 0).

Definition ymd2ord (year month day : Z) : Z :=
  days_before_year year + days_before_month year month + day.

Definition DI400Y : Z := 146097.
Definition DI100Y : Z := 36524.
Definition DI4Y : Z := 1461.

Definition ord2ymd (n : Z) : Z * Z * Z :=
  let n := n - 1 in
  let n400 := n / DI400Y in
  let n := n mod DI400Y in
  let year := n400 * 400 + 1 in
  let n100 := n / DI100Y in
  let n := n mod DI100Y in
  let n4 := n / DI4Y in
  let n := n mod DI4Y in
  let n1 := n / 365 in
  let n := n mod 365 in
  let year := year + n100 * 100 + n4 * 4 + n1 in
  if (n1 =? 4) || (n100 =? 4) then (year - 1, 12, 31)
  else
    let leapyear := (n1 =? 3) && (negb (n4 =? 24) || (n100 =? 3)) in
    let month := Z.shiftr (n + 50) 5 in
    let preceding :=
      item DAYS_BEFORE_MONTH month
      + (if (2 <? month) && leapyear then 1 else 0) in
    let '(month, preceding) :=
      if n <? preceding then
        (month - 1,
         preceding - (item DAYS_IN_MONTH (month - 1)
                      + (if (month - 1 =? 2) && leapyear then 1 else 0)))
      else (month, preceding) in
    let n := n - preceding in
    (year, month, n + 1).

(** [_check_date_fields] and [_check_time_fields]: the fields a [datetime]
    can be built from. *)
Definition check_date_fields (year month day : Z) : bool :=
  (MINYEAR <=? year) && (year <=? MAXYEAR)
  && (1 <=? month) && (month <=? 12)
  && (1 <=? day) && (day <=? days_in_month year month).

Definition check_time_fields (hour minute second microsecond : Z) : bool :=
  (0 <=? hour) && (hour <=? 23)
  && (0 <=? minute) && (minute <=? 59)
  && (0 <=? second) && (second <=? 59)
  && (0 <=? microsecond) && (microsecond <=? 999999).

(** A [datetime] object that exists. *)
Definition valid_datetime (d : datetime) : bool :=
  check_date_fields (year d) (month d) (day d)
  && check_time_fields (hour d) (minute d) (second d) (microsecond d).

Definition toordinal (self : datetime) : Z :=
  ymd2ord (year self) (month self) (day self).

(** [self.replace(year=, month=, day=)]. *)
Definition replace_date (self : datetime) (year month day : Z)
  : result datetime :=
  if check_date_fields year month day then
    Returns (mkDatetime year month day (hour self) (minute self)
               (second self) (microsecond self) (tzinfo self))
  else Raises ValueError.

(** A normalised [timedelta]. *)
Record timedelta_t : Type := mkTimedelta {
  td_days : Z;
  td_seconds : Z;
  td_microseconds : Z
}.

(** [timedelta(days, hours=, minutes=, seconds=, microseconds=)] on
    integers: the constructor carries microseconds into seconds and seconds
    into days. *)
Definition timedelta (days hours minutes seconds microseconds : Z)
  : timedelta_t :=
  let s := seconds + minutes * 60 + hours * 3600 + microseconds / 1000000 in
  mkTimedelta (days + s / 86400) (s mod 86400) (microseconds mod 1000000).

Definition timedelta_add (self other : timedelta_t) : timedelta_t :=
  timedelta (td_days self + td_days other) 0 0
            (td_seconds self + td_seconds other)
            (td_microseconds self + td_microseconds other).

(** [datetime.__add__] with a [timedelta]. *)
Definition datetime_add (self : datetime) (other : timedelta_t)
  : result datetime :=
  let delta :=
    timedelta_add
      (timedelta (toordinal self) (hour self) (minute self) (second self)
                 (microsecond self))
      other in
  let hour := td_seconds delta / 3600 in
  let rem := td_seconds delta mod 3600 in
  let minute := rem / 60 in
  let second := rem mod 60 in
  if (0 <? td_days delta) && (td_days delta <=? MAXORDINAL) then
    let '(y, m, d) := ord2ymd (td_days delta) in
    Returns (mkDatetime y m d hour minute second (td_microseconds delta)
               (tzinfo self))
  else Raises OverflowError.

(** A [relativedelta] built from relative amounts only; the absolute fields
    ([year], [month], [day], [weekday], ...) are [None]. *)
Record relativedelta : Type := mkRelativedelta {
  years : Z;
  months : Z;
  days : Z;
  leapdays : Z;
  hours : Z;
  minutes : Z;
  seconds : Z;
  microseconds : Z
}.

Definition relativedelta_years (n : Z) : relativedelta :=
  mkRelativedelta n 0 0 0 0 0 0 0.
Definition relativedelta_days (n : Z) : relativedelta :=
  mkRelativedelta 0 0 n 0 0 0 0 0.

Definition relativedelta_neg (self : relativedelta) : relativedelta :=
  mkRelativedelta (- years self) (- months self) (- days self)
                  (leapdays self) (- hours self) (- minutes self)
                  (- seconds self) (- microseconds self).

(** [calendar.monthrange(year, month)[1]] *)
Definition monthrange_days (year month : Z) : Z :=
  item DAYS_IN_MONTH month + (if (month =? 2) && is_leap year then 1 else 0).

(** [relativedelta.__add__(self, other)] for a [datetime] [other], which is
    also [other + self]. *)
Definition relativedelta_add (self : relativedelta) (other : datetime)
  : result datetime :=
  let year := year other + years self in
  let month := month other in
  let '(year, month) :=
    if months self =? 0 then (year, month)
    else
      let month := month + months self in
      if 12 <? month then (year + 1, month - 12)
      else if month <? 1 then (year - 1, month + 12)
      else (year, month) in
  let day := Z.min (monthrange_days year month) (day other) in
  let days :=
    if negb (leapdays self =? 0) && (2 <? month) && is_leap year
    then days self + leapdays self
    else days self in
  match replace_date other year month day with
  | Returns replaced =>
      datetime_add replaced
        (timedelta days (hours self) (minutes self) (seconds self)
                   (microseconds self))
  | Raises e => Raises e
  end.

(** [other - self]: [relativedelta.__rsub__], that is
    [self.__neg__().__radd__(other)]. *)
Definition relativedelta_rsub (self : relativedelta) (other : datetime)
  : result datetime :=
  relativedelta_add (relativedelta_neg self) other.

(** One decimal digit; ["%02d"] and ["%04d"] of a number that fits. *)
Definition digit (d : Z) : string :=
  String (Ascii.ascii_of_nat (48 + Z.to_nat d)) "".
Definition fmt02d (z : Z) : string := digit (z / 10) ++ digit (z mod 10).
Definition fmt04d (z : Z) : string :=
  digit (z / 1000) ++ digit (z / 100 mod 10)
  ++ digit (z / 10 mod 10) ++ digit (z mod 10).

(** [self.isoformat(timespec='seconds')] *)
Definition isoformat_seconds (self : datetime) : string :=
  fmt04d (year self) ++ "-" ++ fmt02d (month self) ++ "-" ++ fmt02d (day self)
  ++ "T" ++ fmt02d (hour self) ++ ":" ++ fmt02d (minute self)
  ++ ":" ++ fmt02d (second self)
  ++ match tzinfo self with
     | Some timezone_utc => "+00:00"
     | None => ""
     end.

(** The instant an aware UTC [datetime] names, in whole seconds from the
    start of day 0 of the proleptic Gregorian calendar. *)
Definition utc_seconds (d : datetime) : Z :=
  toordinal d * 86400 + hour d * 3600 + minute d * 60 + second d.

(** ** Calendar notions used in the statements and proofs *)

(** The month and day of the [n]-th day (from 0) of a year, as the tail of
    [ord2ymd] finds them. *)
Definition month_day (leapyear : bool) (n : Z) : Z * Z :=
  let month := Z.shiftr (n + 50) 5 in
  let preceding :=
    item DAYS_BEFORE_MONTH month
    + (if (2 <? month) && leapyear then 1 else 0) in
  let '(month, preceding) :=
    if n <? preceding then
      (month - 1,
       preceding - (item DAYS_IN_MONTH (month - 1)
                    + (if (month - 1 =? 2) && leapyear then 1 else 0)))
    else (month, preceding) in
  (month, n - preceding + 1).

(** [days_in_month] and [days_before_month] by the kind of year. *)
Definition dim_of (leap : bool) (m : Z) : Z :=
  if (m =? 2) && leap then 29 else item DAYS_IN_MONTH m.
Definition dbm_of (leap : bool) (m : Z) : Z :=
  item DAYS_BEFORE_MONTH m + (if (2 <? m) && leap then 1 else 0).

(** Day [d] of month [m]: its rank in the year is in range, and [month_day]
    finds [m] and [d] back from it (the 366th day is read apart). *)
Definition month_day_ok (leap : bool) (m d : Z) : Prop :=
  d <= dim_of leap m ->
  0 <= dbm_of leap m + d - 1 <= 364 + (if leap then 1 else 0)
  /\ (if dbm_of leap m + d - 1 =? 365 then (m, d) = (12, 31)
      else month_day leap (dbm_of leap m + d - 1) = (m, d)).

(** The day before, for any day but the first of year 1. *)
Definition prev_day (y m d : Z) : Z * Z * Z :=
  if 1 <? d then (y, m, d - 1)
  else if 1 <? m then (y, m - 1, days_in_month y (m - 1))
  else (y - 1, 12, 31).

(** What [now + relativedelta(years=100)] is: the same day and time of day a
    hundred calendar years on (29 February falls back on the 28th when that
    year has none). *)
Definition forever_until (now : datetime) : datetime :=
  mkDatetime (year now + 100) (month now)
    (Z.min (days_in_month (year now + 100) (month now)) (day now))
    (hour now) (minute now) (second now) (microsecond now) (tzinfo now).

(** ** The resource layer *)

(** A method bound to its object, as the pagination classes store one in
    [fetch]: [atlas.Clusters.get_all_clusters] and its likes, and, for
    [AlertsGetAll], its own [fetch] bound to an instance whose
    [get_all_alerts] is [atlas.Alerts.get_all_alerts] and whose [status] is
    the one given. *)
Inductive bound_method (Item : Type) : Type :=
| Clusters_get_all_clusters (a : Atlas Item)
| Whitelist_get_all_whitelist_entries (a : Atlas Item)
| DatabaseUsers_get_all_database_users (a : Atlas Item)
| Projects_get_all_projects (a : Atlas Item)
| AlertsGetAll_fetch (a : Atlas Item) (status : option string).
Arguments Clusters_get_all_clusters {Item} a.
Arguments Whitelist_get_all_whitelist_entries {Item} a.
Arguments DatabaseUsers_get_all_database_users {Item} a.
Arguments Projects_get_all_projects {Item} a.
Arguments AlertsGetAll_fetch {Item} a status.

(** "AtlasPagination or dict": what a "get all" returns, by its [iterable]. *)
Definition list_result (Item : Type) (iterable : bool) : Type :=
  if iterable then AtlasPagination Item (bound_method Item) else Page Item.

Section Resources.
Context {Item : Type} `{!Settings}.

(** The transport serves a call: it records it and answers. *)
Definition Network_request (net : Network Item) (r : request)
  : M calls (Page Item) :=
  fun log => (respond net log r, log ++ [r]).

Definition Network_get (net : Network Item) (url : string) :=
  Network_request net (mkRequest GET url None).
Definition Network_delete (net : Network Item) (url : string) :=
  Network_request net (mkRequest DELETE url None).
Definition Network_patch (net : Network Item) (url : string)
    (data : gmap string string) :=
  Network_request net (mkRequest PATCH url (Some data)).

(** Modelled from the spec: [ErrPaginationLimits.checkAndRaise], defined in
    [atlasapi/errors.py], which is not among the sources.  The spec (4.1):
    "given pageNumber and itemsPerPage, fails with a PaginationLimitsError if
    itemsPerPage is outside the configured [minPageSize, maxPageSize] bound.
    Pure, no side effects." *)
Definition checkAndRaise (pageNum itemsPerPage : Z) : M calls unit :=
  if (itemsPerPage <? itemsPerPageMin)
     || (itemsPerPageMax <? itemsPerPage)
  then raise ErrPaginationLimits
  else ret tt.

(** The five pagination classes: each hands its bound "get all" to
    [AtlasPagination.__init__]. *)
Definition DatabaseUsersGetAll (a : Atlas Item) (pageNum itemsPerPage : Z) :=
  AtlasPagination_init a (DatabaseUsers_get_all_database_users a) pageNum itemsPerPage.
Definition WhitelistGetAll (a : Atlas Item) (pageNum itemsPerPage : Z) :=
  AtlasPagination_init a (Whitelist_get_all_whitelist_entries a) pageNum itemsPerPage.
Definition ProjectsGetAll (a : Atlas Item) (pageNum itemsPerPage : Z) :=
  AtlasPagination_init a (Projects_get_all_projects a) pageNum itemsPerPage.
Definition ClustersGetAll (a : Atlas Item) (pageNum itemsPerPage : Z) :=
  AtlasPagination_init a (Clusters_get_all_clusters a) pageNum itemsPerPage.
Definition AlertsGetAll (a : Atlas Item) (status : option string)
    (pageNum itemsPerPage : Z) :=
  AtlasPagination_init a (AlertsGetAll_fetch a status) pageNum itemsPerPage.

Definition get_all_clusters (a : Atlas Item) (pageNum itemsPerPage : Z)
    (iterable : bool) : M calls (list_result Item iterable) :=
  checkAndRaise pageNum itemsPerPage ;;;
  match iterable return M calls (list_result Item iterable) with
  | true => ret (ClustersGetAll a pageNum itemsPerPage)
  | false =>
      let uri := percent
                   (api_resources "Clusters" "Get All Clusters")
                   [AStr (group a); AInt pageNum; AInt itemsPerPage] in
      Network_get (network a) (BASE_URL ++ uri)
  end.

Definition delete_a_cluster (a : Atlas Item) (cluster : string)
    (areYouSure : bool) : M calls (Page Item) :=
  if areYouSure then
    let uri := percent
                 (api_resources "Clusters" "Delete a Cluster")
                 [AStr (group a); AStr cluster] in
    Network_delete (network a) (BASE_URL ++ uri)
  else
    raise (ErrConfirmationRequested
             ("Please set areYouSure=True on delete_a_cluster call if you really want to delete ["
              ++ cluster ++ "]")).

Definition get_all_whitelist_entries (a : Atlas Item) (pageNum itemsPerPage : Z)
    (iterable : bool) : M calls (list_result Item iterable) :=
  checkAndRaise pageNum itemsPerPage ;;;
  match iterable return M calls (list_result Item iterable) with
  | true => ret (WhitelistGetAll a pageNum itemsPerPage)
  | false =>
      let uri := percent
                   (api_resources "Whitelist" "Get All Whitelist Entries")
                   [AStr (group a); AInt pageNum; AInt itemsPerPage] in
      Network_get (network a) (BASE_URL ++ uri)
  end.

Definition get_all_database_users (a : Atlas Item) (pageNum itemsPerPage : Z)
    (iterable : bool) : M calls (list_result Item iterable) :=
  checkAndRaise pageNum itemsPerPage ;;;
  match iterable return M calls (list_result Item iterable) with
  | true => ret (DatabaseUsersGetAll a pageNum itemsPerPage)
  | false =>
      let uri := percent
                   (api_resources "Database Users" "Get All Database Users")
                   [AStr (group a); AInt pageNum; AInt itemsPerPage] in
      Network_get (network a) (BASE_URL ++ uri)
  end.

Definition delete_a_database_user (a : Atlas Item) (user : string)
  : M calls (Page Item) :=
  let uri := percent
               (api_resources "Database Users" "Delete a Database User")
               [AStr (group a); AStr user] in
  Network_delete (network a) (BASE_URL ++ uri).

Definition get_all_projects (a : Atlas Item) (pageNum itemsPerPage : Z)
    (iterable : bool) : M calls (list_result Item iterable) :=
  checkAndRaise pageNum itemsPerPage ;;;
  match iterable return M calls (list_result Item iterable) with
  | true => ret (ProjectsGetAll a pageNum itemsPerPage)
  | false =>
      let uri := percent
                   (api_resources "Projects" "Get All Projects")
                   [AInt pageNum; AInt itemsPerPage] in
      Network_get (network a) (BASE_URL ++ uri)
  end.

(** [if status:] on [None] or a string. *)
Definition truthy (status : option string) : bool :=
  match status with
  | Some s => negb (String.eqb s "")
  | None => false
  end.

(** [str(status)], as [%s] renders it. *)
Definition str (status : option string) : string :=
  match status with
  | Some s => s
  | None => "None"
  end.

Definition get_all_alerts (a : Atlas Item) (status : option string)
    (pageNum itemsPerPage : Z) (iterable : bool)
  : M calls (list_result Item iterable) :=
  checkAndRaise pageNum itemsPerPage ;;;
  match iterable return M calls (list_result Item iterable) with
  | true => ret (AlertsGetAll a status pageNum itemsPerPage)
  | false =>
      let uri :=
        if truthy status then
          percent
            (api_resources "Alerts" "Get All Alerts with status")
            [AStr (group a); AStr (str status); AInt pageNum; AInt itemsPerPage]
        else
          percent
            (api_resources "Alerts" "Get All Alerts")
            [AStr (group a); AInt pageNum; AInt itemsPerPage] in
      Network_get (network a) (BASE_URL ++ uri)
  end.

(** A computation that touches no world. *)
Definition lift {W A} (r : result A) : M W A := fun w => (r, w).

Definition acknowledge_an_alert (a : Atlas Item) (alert : string)
    (until : datetime) (comment : option string) : M calls (Page Item) :=
  let data : gmap string string :=
    {[ "acknowledgedUntil" := isoformat_seconds until ]} in
  let data :=
    if truthy comment then <[ "acknowledgementComment" := str comment ]> data
    else data in
  let uri := percent (api_resources "Alerts" "Acknowledge an Alert")
               [AStr (group a); AStr alert] in
  Network_patch (network a) (BASE_URL ++ uri) data.

(** [now] is what [datetime.now(timezone.utc)] gave when the call was
    made. *)
Definition unacknowledge_an_alert (a : Atlas Item) (alert : string)
    (now : datetime) : M calls (Page Item) :=
  until <- lift (relativedelta_rsub (relativedelta_days 1) now) ;;
  acknowledge_an_alert a alert until None.

Definition acknowledge_an_alert_forever (a : Atlas Item) (alert : string)
    (comment : option string) (now : datetime) : M calls (Page Item) :=
  until <- lift (relativedelta_add (relativedelta_years 100) now) ;;
  acknowledge_an_alert a alert until comment.

(** The request of a page of alerts filtered on [status]. *)
Definition alerts_page_request (a : Atlas Item) (status : string)
    (pageNum itemsPerPage : Z) : request :=
  mkRequest GET
    (BASE_URL ++ percent
       (api_resources "Alerts" "Get All Alerts with status")
       [AStr (group a); AStr status; AInt pageNum; AInt itemsPerPage])
    None.

(** Calling what [fetch] holds with [(pageNum, itemsPerPage)]: [iterable]
    takes its default, [False].  [AlertsGetAll.fetch] passes the instance's
    [status] to [get_all_alerts] ahead of the two. *)
#[global] Instance bound_method_call : Callable Item calls (bound_method Item) :=
  fun m pageNum itemsPerPage =>
    match m with
    | Clusters_get_all_clusters a =>
        get_all_clusters a pageNum itemsPerPage false
    | Whitelist_get_all_whitelist_entries a =>
        get_all_whitelist_entries a pageNum itemsPerPage false
    | DatabaseUsers_get_all_database_users a =>
        get_all_database_users a pageNum itemsPerPage false
    | Projects_get_all_projects a =>
        get_all_projects a pageNum itemsPerPage false
    | AlertsGetAll_fetch a status =>
        get_all_alerts a status pageNum itemsPerPage false
    end.

End Resources.

(** ** Fetch doubles *)

(** A stand-in for a fetch binding, as a test would write one: it records
    the [(pageNum, itemsPerPage)] of every call and answers as a function of
    the calls recorded before and of the call at hand. *)
Record FetchDouble (Item : Type) : Type := mkFetchDouble {
  behaviour : list (Z * Z) -> Z -> Z -> result (Page Item)
}.
Arguments mkFetchDouble {Item} _.
Arguments behaviour {Item} _ _ _ _.

#[global] Instance FetchDouble_call {Item : Type}
  : Callable Item (list (Z * Z)) (FetchDouble Item) :=
  fun d pageNum itemsPerPage log =>
    (behaviour d log pageNum itemsPerPage, log ++ [(pageNum, itemsPerPage)]).

(** Page [pageNum] of a collection cut into pages of [itemsPerPage] items,
    with the size of the whole collection as its [totalCount]. *)
Definition page_of {Item : Type} (coll : list Item) (pageNum itemsPerPage : Z)
  : Page Item :=
  mkPage (Some (Z.of_nat (length coll)))
         (Some (take (Z.to_nat itemsPerPage)
                  (drop (Z.to_nat ((pageNum - 1) * itemsPerPage)) coll))).

(** The binding that serves a fixed collection page by page. *)
Definition paged {Item : Type} (coll : list Item) : FetchDouble Item :=
  mkFetchDouble (fun _ pageNum itemsPerPage =>
                   Returns (page_of coll pageNum itemsPerPage)).

(** The number of fetches a whole traversal from page 1 is expected to make
    over [totalCount] items: one per page, and one for an empty collection. *)
Definition expected_fetches (totalCount itemsPerPage : Z) : Z :=
  Z.max 1 ((totalCount + itemsPerPage - 1) / itemsPerPage).

(** ** The rest of the resource layer *)

Section MoreResources.
Context {Item : Type} `{!Settings}.

Definition Network_post (net : Network Item) (url : string)
    (data : gmap string string) :=
  Network_request net (mkRequest POST url (Some data)).

Definition get_a_single_cluster (a : Atlas Item) (cluster : string)
  : M calls (Page Item) :=
  let uri := percent (api_resources "Clusters" "Get a Single Cluster")
               [AStr (group a); AStr cluster] in
  Network_get (network a) (BASE_URL ++ uri).

(** [except ErrAtlasNotFound]: the class is one of those [Exception]
    stands for, known by its name. *)
Definition is_ErrAtlasNotFound (e : exn) : bool :=
  match e with
  | Exception cls => String.eqb cls "ErrAtlasNotFound"
  | _ => false
  end.

Definition is_existing_cluster (a : Atlas Item) (cluster : string)
  : M calls bool :=
  fun w =>
    match get_a_single_cluster a cluster w with
    | (Returns _, w') => (Returns true, w')
    | (Raises e, w') =>
        if is_ErrAtlasNotFound e then (Returns false, w') else (Raises e, w')
    end.

Definition create_a_project (a : Atlas Item) (name : string)
    (orgId : option string) : M calls (Page Item) :=
  let uri := api_resources "Projects" "Create a Project" in
  let project : gmap string string := {[ "name" := name ]} in
  let project :=
    if truthy orgId then <[ "orgId" := str orgId ]> project else project in
  Network_post (network a) (BASE_URL ++ uri) project.

(** The [Atlas] a bound "get all" belongs to. *)
Definition method_atlas (m : bound_method Item) : Atlas Item :=
  match m with
  | Clusters_get_all_clusters a
  | Whitelist_get_all_whitelist_entries a
  | DatabaseUsers_get_all_database_users a
  | Projects_get_all_projects a
  | AlertsGetAll_fetch a _ => a
  end.

(** The request a bound "get all" sends for one page. *)
Definition page_request (m : bound_method Item) (pageNum itemsPerPage : Z)
  : request :=
  let uri :=
    match m with
    | Clusters_get_all_clusters a =>
        percent (api_resources "Clusters" "Get All Clusters")
          [AStr (group a); AInt pageNum; AInt itemsPerPage]
    | Whitelist_get_all_whitelist_entries a =>
        percent (api_resources "Whitelist" "Get All Whitelist Entries")
          [AStr (group a); AInt pageNum; AInt itemsPerPage]
    | DatabaseUsers_get_all_database_users a =>
        percent (api_resources "Database Users" "Get All Database Users")
          [AStr (group a); AInt pageNum; AInt itemsPerPage]
    | Projects_get_all_projects a =>
        percent (api_resources "Projects" "Get All Projects")
          [AInt pageNum; AInt itemsPerPage]
    | AlertsGetAll_fetch a status =>
        if truthy status then
          percent (api_resources "Alerts" "Get All Alerts with status")
            [AStr (group a); AStr (str status); AInt pageNum; AInt itemsPerPage]
        else
          percent (api_resources "Alerts" "Get All Alerts")
            [AStr (group a); AInt pageNum; AInt itemsPerPage]
    end in
  mkRequest GET (BASE_URL ++ uri) None.

End MoreResources.

(** ** Notions used in the statements about traversals *)

(** The calls of pages [p], [p + 1], ... ([j] of them), [n] items each. *)
Definition page_calls (p n : Z) (j : nat) : list (Z * Z) :=
  (fun q => (q, n)) <$> seqZ p (Z.of_nat j).

(** A frame and a record of calls as a traversal from page [p] gets into
    after [j] fetches. *)
Definition log_ok {Item : Type} (w0 : list (Z * Z)) (p n : Z)
    (fr : frame Item) (log : list (Z * Z)) : Prop :=
  exists j : nat,
    log = w0 ++ page_calls p n j
    /\ match fr with
       | Created => j = 0%nat
       | Suspended q _ _ _ _ => q = p + Z.of_nat j - 1
       | Closed => True
       end.

(** The requests of pages [p], [p + 1], ... ([j] of them) of a bound
    "get all". *)
Definition page_requests {Item : Type} `{!Settings} (m : bound_method Item)
    (p n : Z) (j : nat) : list request :=
  (fun q => page_request m q n) <$> seqZ p (Z.of_nat j).

(** A frame and a record of the transport as a traversal from page [p] over
    [m] gets into after [j] requests. *)
Definition requests_ok {Item : Type} `{!Settings} (w0 : calls)
    (m : bound_method Item) (p n : Z) (fr : frame Item) (w : calls) : Prop :=
  exists j : nat,
    w = w0 ++ page_requests m p n j
    /\ match fr with
       | Created => j = 0%nat
       | Suspended q _ _ _ _ => q = p + Z.of_nat j - 1
       | Closed => True
       end.

(** The outer loop run from its test, then [k] pulls on the generator it
    leaves: what [S k] pulls give on a generator about to run that test. *)
Definition loop_then_pulls {Item W F : Type} `{!Callable Item W F}
    (f fuel k : nat) (self : AtlasPagination Item F) (p total : Z) (w : W)
  : list (pull Item) * generator Item F * W :=
  let '(r, s, fr, w') := fetch_loop f self p total w in
  let '(out, g, w'') := pulls k fuel (mkGenerator s fr) w' in
  (r :: out, g, w'').

(** ** Fixtures for the examples *)

Definition render (x : fmt_arg) : string :=
  match x with
  | AStr s => s
  | AInt z => pretty z
  end.

(** Settings to run the examples with; the templates and the filling of a
    template are stand-ins. *)
Definition example_Settings : Settings :=
  mkSettings "https://cloud.mongodb.com"
    (fun family operation => ("/" ++ family ++ "/" ++ operation)%string)
    (fun template args =>
       (template ++ "?" ++ String.concat "&" (render <$> args))%string)
    1 100 1 500.

(** A transport that answers every call with an empty page. *)
Definition example_atlas : Atlas nat :=
  mkAtlas "5a0a1e7e0f2912c554080adc"
    (mkNetwork (fun _ _ => Returns (mkPage (Some 0) (Some [])))).

(** A binding whose first page announces 25 items and whose second fails. *)
Definition failing_second_page : FetchDouble nat :=
  mkFetchDouble (fun _ pageNum _ =>
                   if pageNum =? 1 then Returns (mkPage (Some 25) (Some (seq 0 10)))
                   else Raises (Exception "ErrAtlasNotFound")).

(** A binding whose payload has no [totalCount]. *)
Definition malformed_page : FetchDouble nat :=
  mkFetchDouble (fun _ _ _ => Returns (mkPage None (Some [7; 8; 9]%nat))).

(** A binding that always fails. *)
Definition unreachable : FetchDouble nat :=
  mkFetchDouble (fun _ _ _ => Raises (Exception "ErrAtlasServerErrors")).

(** 4 November 2026, 08:05:09.123456 UTC. *)
Definition example_now : datetime :=
  mkDatetime 2026 11 4 8 5 9 123456 (Some timezone_utc).

(** A binding that reports 25 items on every page and serves pages of any
    length: one item on page 1, none on page 2, twelve on page 3. *)
Definition ragged_pages (q : Z) : list nat :=
  if q =? 1 then [100%nat]
  else if q =? 2 then []
  else seq 0 12.

Definition ragged : FetchDouble nat :=
  mkFetchDouble (fun _ q _ => Returns (mkPage (Some 25) (Some (ragged_pages q)))).

(** A transport that serves 25 clusters in pages of 10 and knows nothing
    else. *)
Definition cluster_page_url (q : Z) : string :=
  url (page_request (H := example_Settings)
         (Clusters_get_all_clusters example_atlas) q 10).

Definition serving_atlas : Atlas nat :=
  mkAtlas (group example_atlas)
    (mkNetwork (fun _ r =>
       if String.eqb (url r) (cluster_page_url 1)
       then Returns (page_of (seq 0 25) 1 10)
       else if String.eqb (url r) (cluster_page_url 2)
       then Returns (page_of (seq 0 25) 2 10)
       else if String.eqb (url r) (cluster_page_url 3)
       then Returns (page_of (seq 0 25) 3 10)
       else Raises (Exception "ErrAtlasNotFound"))).

(** A transport that serves 25 open alerts in pages of 10 and knows
    nothing else. *)
Definition alert_page_url (q : Z) : string :=
  url (alerts_page_request (H := example_Settings) example_atlas "OPEN" q 10).

Definition alerts_atlas : Atlas nat :=
  mkAtlas (group example_atlas)
    (mkNetwork (fun _ r =>
       if String.eqb (url r) (alert_page_url 1)
       then Returns (page_of (seq 0 25) 1 10)
       else if String.eqb (url r) (alert_page_url 2)
       then Returns (page_of (seq 0 25) 2 10)
       else if String.eqb (url r) (alert_page_url 3)
       then Returns (page_of (seq 0 25) 3 10)
       else Raises (Exception "ErrAtlasNotFound"))).

(** 1 January 9950 and 1 January of year 1, midnight UTC. *)
Definition late_now : datetime :=
  mkDatetime 9950 1 1 0 0 0 0 (Some timezone_utc).
Definition first_now : datetime :=
  mkDatetime 1 1 1 0 0 0 0 (Some timezone_utc).

(** * Properties of the pagination engine *)

Section EngineFacts.
Context {Item W F : Type} `{!Callable Item W F}.
Implicit Types (self : AtlasPagination Item F) (g : generator Item F) (w : W).

Lemma page_loop_yield pageNum total (rs : list Item) i x :
  rs !! i = Some x ->
  page_loop pageNum total rs (length rs) i
  = Some (Yield x, Suspended pageNum total rs (length rs) (S i)).
Proof.
  intros Hx. unfold page_loop.
  apply lookup_lt_Some in Hx as Hlt.
  destruct (Nat.ltb_spec i (length rs)) as [_|]; [|lia].
  by rewrite Hx.
Qed.

Lemma page_loop_over pageNum total (rs : list Item) count i :
  (count <= i)%nat -> page_loop pageNum total rs count i = None.
Proof.
  intros Hle. unfold page_loop.
  destruct (Nat.ltb_spec i count); [lia|done].
Qed.

Lemma fetch_loop_stop fuel self pageNum total w :
  itemsPerPage self <= pageNum * itemsPerPage self - total ->
  fetch_loop fuel self pageNum total w = (StopIteration, self, Closed, w).
Proof.
  intros Hge. destruct fuel; simpl;
    destruct (Z.ltb_spec (pageNum * itemsPerPage self - total) (itemsPerPage self));
    (lia || done).
Qed.

Lemma fetch_loop_page fuel self pageNum total w total' rs w' :
  pageNum * itemsPerPage self - total < itemsPerPage self ->
  call (fetch self) pageNum (itemsPerPage self) w
  = (Returns (mkPage (Some total') (Some rs)), w') ->
  fetch_loop (S fuel) self pageNum total w
  = match rs with
    | [] => fetch_loop fuel self (pageNum + 1) total' w'
    | x :: _ => (Yield x, self, Suspended pageNum total' rs (length rs) 1, w')
    end.
Proof.
  intros Hlt Hcall. simpl.
  destruct (Z.ltb_spec (pageNum * itemsPerPage self - total) (itemsPerPage self));
    [|lia].
  rewrite Hcall. simpl. by destruct rs.
Qed.

Lemma next_closed fuel self w :
  next fuel (mkGenerator self Closed) w
  = (StopIteration, mkGenerator self Closed, w).
Proof. done. Qed.

Lemma next_yield fuel self pageNum total (rs : list Item) i x w :
  rs !! i = Some x ->
  next fuel (mkGenerator self (Suspended pageNum total rs (length rs) i)) w
  = (Yield x, mkGenerator self (Suspended pageNum total rs (length rs) (S i)), w).
Proof.
  intros Hx. unfold next. simpl. by rewrite (page_loop_yield _ _ _ _ _ Hx).
Qed.

Lemma pulls_S k fuel g w :
  pulls (S k) fuel g w
  = let '(r, g', w') := next fuel g w in
    let '(rs, g'', w'') := pulls k fuel g' w' in
    (r :: rs, g'', w'').
Proof. done. Qed.

Lemma pulls_app k1 k2 fuel g w :
  pulls (k1 + k2) fuel g w
  = let '(rs1, g1, w1) := pulls k1 fuel g w in
    let '(rs2, g2, w2) := pulls k2 fuel g1 w1 in
    (rs1 ++ rs2, g2, w2).
Proof.
  revert g w. induction k1 as [|k1 IH]; intros g w; simpl.
  - by destruct (pulls k2 fuel g w) as [[rs2 g2] w2].
  - destruct (next fuel g w) as [[r g'] w']. rewrite IH.
    destruct (pulls k1 fuel g' w') as [[rs1 g1] w1].
    by destruct (pulls k2 fuel g1 w1) as [[rs2 g2] w2].
Qed.

Lemma pulls_closed k fuel self w :
  pulls k fuel (mkGenerator self Closed) w
  = (replicate k StopIteration, mkGenerator self Closed, w).
Proof.
  induction k as [|k IH]; [done|].
  rewrite pulls_S, next_closed, IH. done.
Qed.

(** The rest of a page already fetched is handed out without a fetch. *)
Lemma pulls_page fuel self pageNum total (rs : list Item) i w :
  (i <= length rs)%nat ->
  pulls (length rs - i) fuel
    (mkGenerator self (Suspended pageNum total rs (length rs) i)) w
  = (Yield <$> drop i rs,
     mkGenerator self (Suspended pageNum total rs (length rs) (length rs)), w).
Proof.
  remember (length rs - i)%nat as d eqn:Hd.
  revert i Hd. induction d as [|d IH]; intros i Hd Hle.
  - assert (i = length rs) as -> by lia.
    by rewrite drop_all.
  - destruct (lookup_lt_is_Some_2 rs i) as [x Hx]; [lia|].
    rewrite pulls_S, (next_yield _ _ _ _ _ _ _ _ Hx).
    rewrite (IH (S i)) by lia.
    by rewrite (drop_S _ _ _ Hx).
Qed.

(** A [next] never touches the object it iterates over. *)
Lemma fetch_loop_self fuel self pageNum total w :
  (fetch_loop fuel self pageNum total w).1.1.2 = self.
Proof.
  revert pageNum total w. induction fuel as [|fuel IH]; intros pageNum total w; simpl.
  - by destruct (_ <? _).
  - destruct (_ <? _); [|done].
    destruct (call _ _ _ _) as [[details|e] w']; [|done].
    destruct (totalCount details); [|done].
    destruct (results details) as [rs|]; [|done].
    destruct (page_loop _ _ _ _ _) as [[r fr]|]; [done|]. apply IH.
Qed.

Lemma next_self fuel g w : gi_self (next fuel g w).1.2 = gi_self g.
Proof.
  unfold next. destruct (gi_frame g) as [|p t rs c i|]; simpl.
  - pose proof (fetch_loop_self fuel (gi_self g) (pageNum (gi_self g))
                  (pageNum (gi_self g) * itemsPerPage (gi_self g)) w) as Hs.
    by destruct (fetch_loop _ _ _ _ _) as [[[r s] fr] w'].
  - destruct (page_loop _ _ _ _ _) as [[r fr]|]; [done|].
    pose proof (fetch_loop_self fuel (gi_self g) (p + 1) t w) as Hs.
    by destruct (fetch_loop _ _ _ _ _) as [[[r s] fr] w'].
  - done.
Qed.

Lemma pulls_self k fuel g w : gi_self (pulls k fuel g w).1.2 = gi_self g.
Proof.
  revert g w. induction k as [|k IH]; intros g w; [done|].
  simpl. pose proof (next_self fuel g w) as Hn.
  destruct (next fuel g w) as [[r g'] w']. simpl in Hn.
  pose proof (IH g' w') as Hp.
  destruct (pulls k fuel g' w') as [[rs g''] w'']. simpl in *. congruence.
Qed.

Lemma enters_created self :
  enters (__iter__ self) (pageNum self) (pageNum self * itemsPerPage self).
Proof. intros fuel w. done. Qed.

Lemma enters_page_end self p total (rs : list Item) :
  enters (mkGenerator self (Suspended p total rs (length rs) (length rs)))
         (p + 1) total.
Proof.
  intros fuel w. unfold next. simpl.
  by rewrite page_loop_over.
Qed.

Lemma pulls_finished g p total k fuel w :
  enters g p total ->
  itemsPerPage (gi_self g) <= p * itemsPerPage (gi_self g) - total ->
  pulls (S k) fuel g w
  = (replicate (S k) StopIteration, mkGenerator (gi_self g) Closed, w).
Proof.
  intros Hg Hge. rewrite pulls_S, Hg, fetch_loop_stop by done.
  by rewrite pulls_closed.
Qed.

End EngineFacts.

(** ** Traversal of a collection served page by page *)

Section PagedTraversal.
Context {Item : Type} (coll : list Item) (n : Z) (d : FetchDouble Item).
Hypothesis Hn : 1 <= n.
Hypothesis Hd :
  forall log p, 1 <= p -> behaviour d log p n = Returns (page_of coll p n).

Implicit Types (g : generator Item (FetchDouble Item)) (log : list (Z * Z)).

Lemma page_of_length p :
  1 <= p ->
  length (take (Z.to_nat n) (drop (Z.to_nat ((p - 1) * n)) coll))
  = Z.to_nat (Z.min n (Z.max 0 (Z.of_nat (length coll) - (p - 1) * n))).
Proof.
  intros Hp. rewrite length_take, length_drop. nia.
Qed.

Lemma expected_fetches_pos R : 1 <= expected_fetches R n.
Proof. apply Z.le_max_l. Qed.

Lemma expected_fetches_last R :
  R <= n -> expected_fetches R n = 1.
Proof.
  intros HR. unfold expected_fetches.
  assert ((R + n - 1) / n <= 1); [|lia].
  apply Z.lt_succ_r, Z.div_lt_upper_bound; lia.
Qed.

Lemma expected_fetches_more R :
  n < R -> expected_fetches R n = 1 + expected_fetches (R - n) n.
Proof.
  intros HR. unfold expected_fetches.
  replace (R + n - 1) with ((R - n + n - 1) + 1 * n) by lia.
  rewrite Z.div_add by lia.
  assert (1 <= (R - n + n - 1) / n); [|lia].
  apply Z.div_le_lower_bound; lia.
Qed.

Lemma traverse_from (r : nat) : forall p g total log k fuel,
  (1 <= fuel)%nat -> 1 <= p ->
  fetch (gi_self g) = d -> itemsPerPage (gi_self g) = n ->
  enters g p total ->
  p * n - total < n ->
  (Z.to_nat (Z.of_nat (length coll) - (p - 1) * n) <= r)%nat ->
  pulls (length (drop (Z.to_nat ((p - 1) * n)) coll) + S k) fuel g log
  = ((Yield <$> drop (Z.to_nat ((p - 1) * n)) coll)
       ++ replicate (S k) StopIteration,
     mkGenerator (gi_self g) Closed,
     log ++ ((fun q => (q, n)) <$>
               seqZ p (expected_fetches (Z.of_nat (length coll) - (p - 1) * n) n))).
Proof.
  induction r as [|r IH]; intros p g total log k fuel Hfuel Hp Hf Hipp Hg Hlt Hr.
  all: destruct fuel as [|fuel]; [lia|].
  all: assert (Hofs : 0 <= (p - 1) * n) by nia.
  all: set (T := Z.of_nat (length coll)) in *.
  all: set (rs := take (Z.to_nat n) (drop (Z.to_nat ((p - 1) * n)) coll)).
  all: assert (Hcall : call (fetch (gi_self g)) p (itemsPerPage (gi_self g)) log
                = (Returns (mkPage (Some T) (Some rs)), log ++ [(p, n)])).
  1,3: rewrite Hf, Hipp; unfold call, FetchDouble_call; by rewrite Hd.
  all: pose proof (page_of_length p Hp) as Hlen; fold rs T in Hlen.
  all: assert (Hlt' : p * itemsPerPage (gi_self g) - total < itemsPerPage (gi_self g))
         by (rewrite Hipp; lia).
  all: destruct (Z_le_gt_dec (T - (p - 1) * n) 0) as [HR|HR]; [| try lia].
  1,2: (* nothing is left from page [p] on *)
    assert (rs = []) as Hrs by (apply length_zero_iff_nil; lia);
    rewrite drop_ge by lia; simpl length; simpl fmap; simpl app;
    rewrite Nat.add_0_l, pulls_S, Hg, (fetch_loop_page _ _ _ _ _ _ _ _ Hlt' Hcall), Hrs;
    rewrite fetch_loop_stop by (rewrite Hipp; lia);
    rewrite pulls_closed, expected_fetches_last by lia;
    done.
  (* page [p] has items *)
  destruct rs as [|x rs'] eqn:Hrs; [simpl in Hlen; lia|].
  assert (Hsplit : drop (Z.to_nat ((p - 1) * n)) coll
                   = (x :: rs') ++ drop (Z.to_nat ((p + 1 - 1) * n)) coll).
  { rewrite <- Hrs. unfold rs.
    rewrite <- (take_drop (Z.to_nat n) (drop (Z.to_nat ((p - 1) * n)) coll)) at 1.
    rewrite drop_drop. do 2 f_equal. lia. }
  rewrite Hsplit.
  replace (length ((x :: rs') ++ drop (Z.to_nat ((p + 1 - 1) * n)) coll) + S k)%nat
    with (S ((length (x :: rs') - 1)
             + (length (drop (Z.to_nat ((p + 1 - 1) * n)) coll) + S k)))%nat
    by (rewrite length_app; simpl; lia).
  rewrite pulls_S, Hg, (fetch_loop_page _ _ _ _ _ _ _ _ Hlt' Hcall).
  rewrite pulls_app, pulls_page by (simpl; lia).
  set (g' := mkGenerator (gi_self g)
               (Suspended p T (x :: rs') (length (x :: rs')) (length (x :: rs')))).
  assert (Hg' : enters g' (p + 1) T) by apply enters_page_end.
  destruct (Z_lt_ge_dec (p * n) T) as [Hmore|Hlast].
  - (* more pages follow *)
    rewrite (IH (p + 1) g' T (log ++ [(p, n)]) k (S fuel)); try done; try lia.
    rewrite (expected_fetches_more (T - (p - 1) * n)) by lia.
    pose proof (expected_fetches_pos (T - (p - 1) * n - n)).
    rewrite (seqZ_cons p) by lia.
    rewrite fmap_cons, fmap_app. simpl.
    rewrite <- !app_assoc. simpl.
    rewrite Z.add_1_l, Z.pred_succ, Z.add_1_r.
    by replace (T - (Z.succ p - 1) * n) with (T - (p - 1) * n - n) by lia.
  - (* page [p] was the last *)
    rewrite drop_ge by lia. simpl length. rewrite Nat.add_0_l.
    rewrite (pulls_finished g' (p + 1) T) by (try done; simpl; rewrite ?Hipp; lia).
    rewrite expected_fetches_last by lia.
    rewrite fmap_app. simpl. by rewrite app_nil_r.
Qed.

(** C1.  A binding that reports the size of the collection as [totalCount]
    on every page and serves the collection cut into successive pages of
    [itemsPerPage >= 1] items: the traversal started at page 1 yields the
    items of the collection, all of them and in their order, then stops; the
    fetch calls it made are those of pages [1 .. expected_fetches], one each
    ([expected_fetches 5 5 = 1], [expected_fetches 25 10 = 3]). *)
Theorem traversal_yields_collection (a : Atlas Item) (k fuel : nat) log :
  (1 <= fuel)%nat ->
  pulls (length coll + S k) fuel (__iter__ (AtlasPagination_init a d 1 n)) log
  = ((Yield <$> coll) ++ replicate (S k) StopIteration,
     mkGenerator (AtlasPagination_init a d 1 n) Closed,
     log ++ ((fun q => (q, n)) <$>
               seqZ 1 (expected_fetches (Z.of_nat (length coll)) n))).
Proof.
  intros Hfuel.
  pose proof (traverse_from (length coll) 1
                (__iter__ (AtlasPagination_init a d 1 n)) (1 * n) log k fuel)
    as H.
  replace ((1 - 1) * n) with 0 in H by lia.
  rewrite Z.sub_0_r in H. simpl drop in H.
  apply H;
    first [done | lia | apply (enters_created (AtlasPagination_init a d 1 n))].
Qed.

End PagedTraversal.

(** ** Failures, exhaustion, the first fetch, the object *)

Section Traversal.
Context {Item W F : Type} `{!Callable Item W F}.
Implicit Types (self : AtlasPagination Item F) (g : generator Item F) (w : W).

Lemma fetch_loop_raises fuel self pageNum total w e w' :
  pageNum * itemsPerPage self - total < itemsPerPage self ->
  call (fetch self) pageNum (itemsPerPage self) w = (Raises e, w') ->
  fetch_loop (S fuel) self pageNum total w
  = (Raise ErrPagination, self, Closed, w').
Proof.
  intros Hlt Hcall. simpl.
  destruct (Z.ltb_spec (pageNum * itemsPerPage self - total) (itemsPerPage self));
    [|lia].
  by rewrite Hcall.
Qed.

(** Only a closed frame is left behind a [StopIteration]. *)
Lemma fetch_loop_exhausted fuel self pageNum total w :
  (fetch_loop fuel self pageNum total w).1.1.1 = StopIteration ->
  (fetch_loop fuel self pageNum total w).1.2 = Closed.
Proof.
  revert pageNum total w.
  induction fuel as [|fuel IH]; intros pageNum total w; simpl.
  - by destruct (_ <? _).
  - destruct (_ <? _); [|done].
    destruct (call _ _ _ _) as [[details|e] w']; [|done].
    destruct (totalCount details); [|done].
    destruct (results details) as [rs|]; [|done].
    unfold page_loop.
    destruct (_ <? _)%nat; [|apply IH].
    by destruct (rs !! 0%nat).
Qed.

Lemma next_exhausted fuel g w :
  (next fuel g w).1.1 = StopIteration ->
  gi_frame (next fuel g w).1.2 = Closed.
Proof.
  unfold next. destruct (gi_frame g) as [|p t rs c i|]; simpl.
  - pose proof (fetch_loop_exhausted fuel (gi_self g) (pageNum (gi_self g))
                  (pageNum (gi_self g) * itemsPerPage (gi_self g)) w) as Hs.
    by destruct (fetch_loop _ _ _ _ _) as [[[r s] fr] w'].
  - unfold page_loop. destruct (_ <? _)%nat.
    + by destruct (rs !! i).
    + pose proof (fetch_loop_exhausted fuel (gi_self g) (p + 1) t w) as Hs.
      by destruct (fetch_loop _ _ _ _ _) as [[[r s] fr] w'].
  - done.
Qed.

(** C3, as the code has it.  At every page fetch, an error the fetch call
    raises, whatever its class, reaches the caller as [ErrPagination]; a
    payload that came back without [totalCount] or without [results] is read
    outside the guarded call, and the [KeyError] of the lookup reaches the
    caller as it is.  Either way the generator is closed. *)
Theorem fetch_failure_surfaces fuel self pageNum total w :
  pageNum * itemsPerPage self - total < itemsPerPage self ->
  match call (fetch self) pageNum (itemsPerPage self) w with
  | (Raises e, w') =>
      fetch_loop (S fuel) self pageNum total w
      = (Raise ErrPagination, self, Closed, w')
  | (Returns details, w') =>
      match totalCount details, results details with
      | None, _ =>
          fetch_loop (S fuel) self pageNum total w
          = (Raise (KeyError "totalCount"), self, Closed, w')
      | Some _, None =>
          fetch_loop (S fuel) self pageNum total w
          = (Raise (KeyError "results"), self, Closed, w')
      | Some total', Some (x :: rs) =>
          fetch_loop (S fuel) self pageNum total w
          = (Yield x, self,
             Suspended pageNum total' (x :: rs) (length (x :: rs)) 1, w')
      | Some total', Some [] =>
          fetch_loop (S fuel) self pageNum total w
          = fetch_loop fuel self (pageNum + 1) total' w'
      end
  end.
Proof.
  intros Hlt. simpl.
  destruct (Z.ltb_spec (pageNum * itemsPerPage self - total) (itemsPerPage self));
    [|lia].
  destruct (call _ _ _ _) as [[details|e] w']; [|done].
  destruct (totalCount details); [|done].
  by destruct (results details) as [[|x rs]|].
Qed.

(** C7.  Once a pull has come back with [StopIteration], the traversal is
    exhausted: every further pull comes back with [StopIteration] too, and
    none of them calls the fetch binding or changes anything (the world,
    which only a fetch call can change, stays as it was). *)
Theorem exhausted_stays_exhausted fuel g w k fuel' :
  (next fuel g w).1.1 = StopIteration ->
  pulls k fuel' (next fuel g w).1.2 (next fuel g w).2
  = (replicate k StopIteration, (next fuel g w).1.2, (next fuel g w).2).
Proof.
  intros Hstop. apply next_exhausted in Hstop.
  destruct (next fuel g w) as [[r [self fr]] w']. simpl in *. subst fr.
  apply pulls_closed.
Qed.

(** C10.  Whatever was pulled from a generator of [self], in however many
    pulls, complete or abandoned, the object is what it was: [atlas],
    [fetch], [pageNum] and [itemsPerPage] are the values given at
    construction, and iterating the object again starts a generator equal to
    the first one, at the original [pageNum] and [itemsPerPage]. *)
Theorem iteration_leaves_object a (f : F) p n k fuel w :
  let self := AtlasPagination_init a f p n in
  let self' := gi_self (pulls k fuel (__iter__ self) w).1.2 in
  atlas self' = a /\ fetch self' = f /\ pageNum self' = p
  /\ itemsPerPage self' = n
  /\ __iter__ self' = __iter__ self
  /\ enters (__iter__ self') p (p * n).
Proof.
  intros self self'.
  assert (self' = self) as -> by apply pulls_self.
  split_and!; first [done | apply (enters_created self)].
Qed.

End Traversal.

Section DoubleTraversal.
Context {Item : Type}.
Implicit Types (d : FetchDouble Item) (log : list (Z * Z)).

(** C2.  The binding answers page 1 with [results] and a [totalCount]
    beyond the page size, and raises on page 2: the traversal from page 1
    yields the items of page 1 in order, the next pull raises
    [ErrPagination], once, and every pull after that finds the generator
    closed; pages 1 and 2 were fetched and nothing else. *)
Theorem failure_on_second_page d (a : Atlas Item) n total1 (rs : list Item)
    e log k fuel :
  1 <= n -> n < total1 -> (2 <= fuel)%nat ->
  behaviour d log 1 n = Returns (mkPage (Some total1) (Some rs)) ->
  behaviour d (log ++ [(1, n)]) 2 n = Raises e ->
  pulls (length rs + S k) fuel (__iter__ (AtlasPagination_init a d 1 n)) log
  = ((Yield <$> rs) ++ Raise ErrPagination :: replicate k StopIteration,
     mkGenerator (AtlasPagination_init a d 1 n) Closed,
     log ++ [(1, n); (2, n)]).
Proof.
  intros Hn Htotal Hfuel H1 H2.
  set (self := AtlasPagination_init a d 1 n).
  destruct fuel as [|[|fuel]]; [lia..|].
  assert (Hc1 : call (fetch self) 1 (itemsPerPage self) log
                = (Returns (mkPage (Some total1) (Some rs)), log ++ [(1, n)]))
    by (unfold call, FetchDouble_call; simpl; by rewrite H1).
  assert (Hc2 : call (fetch self) 2 (itemsPerPage self) (log ++ [(1, n)])
                = (Raises e, (log ++ [(1, n)]) ++ [(2, n)]))
    by (unfold call, FetchDouble_call; simpl; by rewrite H2).
  assert (Hlt1 : 1 * itemsPerPage self - 1 * itemsPerPage self < itemsPerPage self)
    by (simpl; lia).
  assert (Hlt2 : 2 * itemsPerPage self - total1 < itemsPerPage self)
    by (simpl; lia).
  assert (Hend : forall f' p (l : list Item),
             pulls (S k) (S f')
               (mkGenerator self (Suspended p total1 l (length l) (length l)))
               (log ++ [(1, n)])
             = (Raise ErrPagination :: replicate k StopIteration,
                mkGenerator self Closed, log ++ [(1, n); (2, n)]) \/ p <> 1).
  { intros f' p l. destruct (decide (p = 1)) as [->|]; [left|by right].
    rewrite pulls_S, (enters_page_end self 1 total1 l).
    rewrite (fetch_loop_raises _ _ _ _ _ _ _ Hlt2 Hc2).
    by rewrite pulls_closed, <- app_assoc. }
  destruct rs as [|x rs'].
  - simpl length. rewrite Nat.add_0_l, pulls_S.
    rewrite (enters_created self).
    rewrite (fetch_loop_page _ _ _ _ _ _ _ _ Hlt1 Hc1).
    rewrite (fetch_loop_raises _ _ _ _ _ _ _ Hlt2 Hc2).
    by rewrite pulls_closed, <- app_assoc.
  - replace (length (x :: rs') + S k)%nat
      with (S ((length (x :: rs') - 1) + S k)) by (simpl; lia).
    rewrite pulls_S, (enters_created self).
    rewrite (fetch_loop_page _ _ _ _ _ _ _ _ Hlt1 Hc1).
    rewrite pulls_app, pulls_page by (simpl; lia).
    destruct (Hend (S fuel) 1 (x :: rs')) as [->|]; [|done].
    simpl. by rewrite drop_0.
Qed.

(** [fetch_loop] only ever adds to the record of calls. *)
Lemma fetch_loop_log fuel (self : AtlasPagination Item (FetchDouble Item))
    p total log :
  exists more, (fetch_loop fuel self p total log).2 = log ++ more.
Proof.
  revert p total log. induction fuel as [|fuel IH]; intros p total log; simpl.
  - exists []. rewrite app_nil_r. by destruct (_ <? _).
  - destruct (_ <? _); [|exists []; by rewrite app_nil_r].
    destruct (behaviour _ _ _ _) as [details|e]; [|by eexists].
    destruct (totalCount details); [|by eexists].
    destruct (results details) as [rs|]; [|by eexists].
    destruct (page_loop _ _ _ _ _) as [[r fr]|]; [by eexists|].
    destruct (IH (p + 1) z (log ++ [(p, itemsPerPage self)])) as [more Hmore].
    exists ((p, itemsPerPage self) :: more). by rewrite Hmore, <- app_assoc.
Qed.

(** Empty pages from a negative page on: the loop goes on up to page 0. *)
Lemma fetch_loop_empty_pages (self : AtlasPagination Item (FetchDouble Item))
    (j : nat) : forall p total log fuel,
  1 <= itemsPerPage self ->
  p = - Z.of_nat j ->
  p * itemsPerPage self - total < itemsPerPage self ->
  (S j <= fuel)%nat ->
  (forall q log', p <= q <= 0 ->
     behaviour (fetch self) log' q (itemsPerPage self)
     = Returns (mkPage (Some 0) (Some []))) ->
  fetch_loop fuel self p total log
  = (StopIteration, self, Closed,
     log ++ ((fun q => (q, itemsPerPage self)) <$> seqZ p (Z.of_nat (S j)))).
Proof.
  induction j as [|j IH]; intros p total log fuel Hn Hp Hlt Hfuel Hempty.
  all: destruct fuel as [|fuel]; [lia|].
  all: assert (Hc : call (fetch self) p (itemsPerPage self) log
                = (Returns (mkPage (Some 0) (Some [])),
                   log ++ [(p, itemsPerPage self)]))
         by (unfold call, FetchDouble_call; rewrite Hempty by lia; done).
  all: rewrite (fetch_loop_page _ _ _ _ _ _ _ _ Hlt Hc).
  - rewrite fetch_loop_stop by lia. by subst p.
  - rewrite (IH (p + 1) 0 _ fuel) by (try done; try lia; intros; apply Hempty; lia).
    replace (Z.of_nat (S (S j))) with (Z.succ (Z.of_nat (S j))) by lia.
    rewrite (seqZ_cons p) by lia.
    rewrite Z.pred_succ, fmap_cons, <- app_assoc.
    by rewrite Z.add_1_r.
Qed.

(** C9, as the code has it.  With [itemsPerPage >= 1] the first pull fetches
    the starting page before anything else, whatever the starting page and
    whatever the binding does: [total] starts at [pageNum * itemsPerPage],
    so the first test of the loop is [0 < itemsPerPage].  When the
    collection is empty ([totalCount = 0], no results) no item is yielded;
    from a starting page that is not negative that fetch is the only one,
    but from a negative page [p] the loop goes on up to page 0: [1 - p]
    fetches, not one, since [(q + 1) * itemsPerPage < itemsPerPage] for
    every [q < 0]. *)
Theorem first_fetch_unconditional d (a : Atlas Item) p n log fuel :
  1 <= n ->
  (exists more,
      (next (S fuel) (__iter__ (AtlasPagination_init a d p n)) log).2
      = log ++ (p, n) :: more)
  /\ (0 <= p ->
      behaviour d log p n = Returns (mkPage (Some 0) (Some [])) ->
      forall k,
        pulls (S k) (S fuel) (__iter__ (AtlasPagination_init a d p n)) log
        = (replicate (S k) StopIteration,
           mkGenerator (AtlasPagination_init a d p n) Closed,
           log ++ [(p, n)]))
  /\ (p < 0 ->
      (forall q log', p <= q <= 0 ->
         behaviour d log' q n = Returns (mkPage (Some 0) (Some []))) ->
      (Z.to_nat (1 - p) <= S fuel)%nat ->
      forall k,
        pulls (S k) (S fuel) (__iter__ (AtlasPagination_init a d p n)) log
        = (replicate (S k) StopIteration,
           mkGenerator (AtlasPagination_init a d p n) Closed,
           log ++ ((fun q => (q, n)) <$> seqZ p (1 - p)))).
Proof.
  intros Hn. set (self := AtlasPagination_init a d p n). split; [|split].
  - rewrite (enters_created self). simpl.
    destruct (Z.ltb_spec (p * n - p * n) n); [|lia].
    destruct (behaviour _ _ _ _) as [details|e]; [|by exists []].
    destruct (totalCount details); [|by exists []].
    destruct (results details) as [rs|]; [|by exists []].
    destruct (page_loop _ _ _ _ _) as [[r fr]|]; [by exists []|].
    destruct (fetch_loop_log fuel self (p + 1) z (log ++ [(p, n)])) as [more Hmore].
    exists more. simpl in *.
    destruct (fetch_loop _ _ _ _ _) as [[[r s] fr] w']. simpl in *.
    by rewrite Hmore, <- app_assoc.
  - intros Hp Hempty k.
    assert (Hc : call (fetch self) (pageNum self) (itemsPerPage self) log
                 = (Returns (mkPage (Some 0) (Some [])), log ++ [(p, n)]))
      by (unfold call, FetchDouble_call; simpl; by rewrite Hempty).
    rewrite pulls_S, (enters_created self).
    assert (Hlt : pageNum self * itemsPerPage self
                  - pageNum self * itemsPerPage self < itemsPerPage self)
      by (simpl; lia).
    rewrite (fetch_loop_page _ _ _ _ _ _ _ _ Hlt Hc).
    rewrite fetch_loop_stop by (simpl; nia).
    by rewrite pulls_closed.
  - intros Hp Hempty Hfuel k.
    rewrite pulls_S, (enters_created self).
    change (gi_self (__iter__ self)) with self.
    rewrite (fetch_loop_empty_pages self (Z.to_nat (- p)) (pageNum self)
               (pageNum self * itemsPerPage self) log (S fuel))
      by (simpl; first [done | lia]).
    rewrite pulls_closed.
    by replace (Z.of_nat (S (Z.to_nat (- p)))) with (1 - p) by lia.
Qed.

End DoubleTraversal.

(** * Properties of the calendar *)

#[local] Instance month_day_ok_dec leap m d : Decision (month_day_ok leap m d).
Proof. unfold month_day_ok. destruct (_ =? 365); apply _. Defined.

Lemma month_day_table :
  Forall (fun leap =>
            Forall (fun m => Forall (month_day_ok leap m) (seqZ 1 31)) (seqZ 1 12))
         [true; false].
Proof. apply (bool_decide_unpack _); vm_compute; exact I. Qed.

Lemma ord2ymd_parts a b c e doy :
  0 <= a -> 0 <= b <= 3 -> 0 <= c <= 24 -> 0 <= e <= 3 ->
  let leap := (e =? 3) && (negb (c =? 24) || (b =? 3)) in
  0 <= doy <= 364 + (if leap then 1 else 0) ->
  ord2ymd (146097 * a + 36524 * b + 1461 * c + 365 * e + doy + 1)
  = if doy =? 365 then (400 * a + 100 * b + 4 * c + e + 1, 12, 31)
    else let '(m, d) := month_day leap doy in
         (400 * a + 100 * b + 4 * c + e + 1, m, d).
Proof.
  intros Ha Hb Hc He leap Hdoy.
  unfold ord2ymd, DI400Y, DI100Y, DI4Y. cbv zeta.
  set (X := 146097 * a + 36524 * b + 1461 * c + 365 * e + doy).
  replace (X + 1 - 1) with X by lia.
  destruct (Z.eqb_spec doy 365) as [Hlast|Hnot].
  - (* 31 December of a leap year *)
    assert (Hleap : leap = true) by (destruct leap; [done|lia]).
    apply andb_true_iff in Hleap as [He3%Z.eqb_eq Hcb].
    assert (X / 146097 = a) as -> by (unfold X; Z.div_mod_to_equations; lia).
    assert (X mod 146097 = 36524 * b + 1461 * c + 365 * e + doy) as ->
        by (unfold X; Z.div_mod_to_equations; lia).
    destruct (Z.eqb_spec c 24) as [Hc24|Hc24]; simpl in Hcb.
    + apply Z.eqb_eq in Hcb. subst b c e doy.
      change (36524 * 3 + 1461 * 24 + 365 * 3 + 365) with 146096.
      change (146096 / 36524) with 4. change (146096 mod 36524) with 0.
      change (0 / 1461) with 0. change (0 mod 1461) with 0.
      change (0 / 365) with 0. simpl.
      repeat f_equal; lia.
    + set (R1 := 36524 * b + 1461 * c + 365 * e + doy).
      assert (R1 / 36524 = b) as -> by (unfold R1; Z.div_mod_to_equations; lia).
      assert (R1 mod 36524 = 1461 * c + 1460) as ->
          by (unfold R1; Z.div_mod_to_equations; lia).
      assert ((1461 * c + 1460) / 1461 = c) as -> by (Z.div_mod_to_equations; lia).
      assert ((1461 * c + 1460) mod 1461 = 1460) as -> by (Z.div_mod_to_equations; lia).
      change (1460 / 365) with 4. change (1460 mod 365) with 0. simpl.
      repeat f_equal; lia.
  - assert (Hd : 0 <= doy <= 364) by (destruct leap; lia).
    assert (X / 146097 = a) as -> by (unfold X; Z.div_mod_to_equations; lia).
    assert (X mod 146097 = 36524 * b + 1461 * c + 365 * e + doy) as ->
        by (unfold X; Z.div_mod_to_equations; lia).
    assert ((36524 * b + 1461 * c + 365 * e + doy) / 36524 = b) as ->
        by (Z.div_mod_to_equations; lia).
    assert ((36524 * b + 1461 * c + 365 * e + doy) mod 36524
            = 1461 * c + 365 * e + doy) as -> by (Z.div_mod_to_equations; lia).
    assert ((1461 * c + 365 * e + doy) / 1461 = c) as ->
        by (Z.div_mod_to_equations; lia).
    assert ((1461 * c + 365 * e + doy) mod 1461 = 365 * e + doy) as ->
        by (Z.div_mod_to_equations; lia).
    assert ((365 * e + doy) / 365 = e) as -> by (Z.div_mod_to_equations; lia).
    assert ((365 * e + doy) mod 365 = doy) as -> by (Z.div_mod_to_equations; lia).
    destruct (Z.eqb_spec e 4); [lia|]. destruct (Z.eqb_spec b 4); [lia|].
    simpl orb. cbv iota. fold leap. unfold month_day.
    destruct (doy <? _); cbv beta iota; do 2 f_equal; lia.
Qed.

Lemma month_day_spec leap m d :
  1 <= m <= 12 -> 1 <= d <= dim_of leap m ->
  0 <= dbm_of leap m + d - 1 <= 364 + (if leap then 1 else 0)
  /\ (if dbm_of leap m + d - 1 =? 365 then (m, d) = (12, 31)
      else month_day leap (dbm_of leap m + d - 1) = (m, d)).
Proof.
  intros Hm Hd.
  assert (Hd31 : d <= 31).
  { assert (Hin : m ∈ seqZ 1 12) by (apply elem_of_seqZ; lia).
    assert (Hall : Forall (fun m => dim_of leap m <= 31) (seqZ 1 12))
      by (destruct leap; apply (bool_decide_unpack _); vm_compute; exact I).
    rewrite Forall_forall in Hall. specialize (Hall m Hin). lia. }
  pose proof month_day_table as Ht.
  rewrite Forall_forall in Ht.
  assert (Hl : leap ∈ [true; false]) by (destruct leap; repeat constructor).
  assert (Hmin : m ∈ seqZ 1 12) by (apply elem_of_seqZ; lia).
  assert (Hdin : d ∈ seqZ 1 31) by (apply elem_of_seqZ; lia).
  specialize (Ht leap Hl). rewrite Forall_forall in Ht.
  specialize (Ht m Hmin). rewrite Forall_forall in Ht.
  apply (Ht d Hdin). lia.
Qed.

Lemma is_leap_parts y :
  let Y := y - 1 in
  is_leap y
  = (Y mod 4 =? 3) && (negb ((Y mod 100) / 4 =? 24) || ((Y mod 400) / 100 =? 3)).
Proof.
  intros Y. unfold is_leap. subst Y.
  destruct (Z.eqb_spec (y mod 4) 0), (Z.eqb_spec (y mod 100) 0),
    (Z.eqb_spec (y mod 400) 0), (Z.eqb_spec ((y - 1) mod 4) 3),
    (Z.eqb_spec ((y - 1) mod 100 / 4) 24),
    (Z.eqb_spec ((y - 1) mod 400 / 100) 3);
    simpl; try reflexivity; exfalso; Z.div_mod_to_equations; lia.
Qed.

Lemma days_before_year_parts y :
  let Y := y - 1 in
  days_before_year y
  = 146097 * (Y / 400) + 36524 * ((Y mod 400) / 100)
    + 1461 * ((Y mod 100) / 4) + 365 * (Y mod 4).
Proof.
  intros Y. unfold days_before_year. fold Y. Z.div_mod_to_equations. lia.
Qed.

(** [date.fromordinal(d.toordinal()) == d] *)
Lemma ord2ymd_ymd2ord y m d :
  1 <= y -> 1 <= m <= 12 -> 1 <= d <= days_in_month y m ->
  ord2ymd (ymd2ord y m d) = (y, m, d).
Proof.
  intros Hy Hm Hd.
  pose proof (is_leap_parts y) as Hleap.
  pose proof (days_before_year_parts y) as Hdby.
  cbv zeta in Hleap, Hdby.
  set (Y := y - 1) in *.
  set (a := Y / 400) in *. set (b := Y mod 400 / 100) in *.
  set (c := Y mod 100 / 4) in *. set (e := Y mod 4) in *.
  destruct (month_day_spec (is_leap y) m d Hm Hd) as [Hdoy Hmd].
  set (doy := dbm_of (is_leap y) m + d - 1) in *.
  assert (Hord : ymd2ord y m d
                 = 146097 * a + 36524 * b + 1461 * c + 365 * e + doy + 1).
  { unfold ymd2ord. rewrite Hdby. unfold doy, dbm_of, days_before_month. lia. }
  assert (Hy' : 400 * a + 100 * b + 4 * c + e + 1 = y)
    by (unfold a, b, c, e, Y; Z.div_mod_to_equations; lia).
  rewrite Hord, ord2ymd_parts.
  - rewrite <- Hleap, Hy'. destruct (doy =? 365).
    + by inversion Hmd.
    + by rewrite Hmd.
  - unfold a, Y. Z.div_mod_to_equations. lia.
  - unfold b, Y. Z.div_mod_to_equations. lia.
  - unfold c, Y. Z.div_mod_to_equations. lia.
  - unfold e, Y. Z.div_mod_to_equations. lia.
  - by rewrite <- Hleap.
Qed.

Lemma year_length y :
  days_before_year (y + 1) - days_before_year y
  = 365 + (if is_leap y then 1 else 0).
Proof.
  unfold days_before_year, is_leap. cbv zeta.
  destruct (Z.eqb_spec (y mod 4) 0), (Z.eqb_spec (y mod 100) 0),
    (Z.eqb_spec (y mod 400) 0); simpl; Z.div_mod_to_equations; lia.
Qed.

Lemma month_before leap m :
  2 <= m <= 12 ->
  dbm_of leap (m - 1) + dim_of leap (m - 1) = dbm_of leap m
  /\ 1 <= dim_of leap (m - 1).
Proof.
  intros Hm.
  assert (Hall : Forall (fun m => dbm_of leap (m - 1) + dim_of leap (m - 1)
                                  = dbm_of leap m
                                  /\ 1 <= dim_of leap (m - 1)) (seqZ 2 11))
    by (destruct leap; apply (bool_decide_unpack _); vm_compute; exact I).
  rewrite Forall_forall in Hall. apply Hall, elem_of_seqZ. lia.
Qed.

Lemma ymd2ord_prev_day y m d :
  1 <= y -> 1 <= m <= 12 -> 1 <= d <= days_in_month y m ->
  1 < ymd2ord y m d ->
  let '(y', m', d') := prev_day y m d in
  ymd2ord y' m' d' = ymd2ord y m d - 1
  /\ 1 <= y' <= y /\ 1 <= m' <= 12 /\ 1 <= d' <= days_in_month y' m'.
Proof.
  intros Hy Hm Hd Hord. unfold prev_day.
  destruct (Z.ltb_spec 1 d) as [Hd1|Hd1].
  { unfold ymd2ord. lia. }
  assert (d = 1) as -> by lia.
  destruct (Z.ltb_spec 1 m) as [Hm1|Hm1].
  { destruct (month_before (is_leap y) m ltac:(lia)) as [Hsum Hpos].
    unfold ymd2ord, days_before_month, days_in_month in *.
    unfold dbm_of, dim_of in Hsum, Hpos. lia. }
  assert (m = 1) as -> by lia.
  assert (Hy2 : 2 <= y).
  { destruct (Z.le_gt_cases 2 y); [done|].
    assert (y = 1) as -> by lia. change (ymd2ord 1 1 1) with 1 in Hord. lia. }
  pose proof (year_length (y - 1)) as Hlen.
  replace (y - 1 + 1) with y in Hlen by lia.
  unfold ymd2ord, days_before_month, days_in_month. simpl.
  change (item DAYS_BEFORE_MONTH 12) with 334.
  change (item DAYS_BEFORE_MONTH 1) with 0.
  change (item DAYS_IN_MONTH 12) with 31.
  destruct (is_leap (y - 1)); lia.
Qed.

Lemma ymd2ord_bounds y m d :
  1 <= y <= MAXYEAR -> 1 <= m <= 12 -> 1 <= d <= days_in_month y m ->
  0 < ymd2ord y m d <= MAXORDINAL.
Proof.
  unfold MAXYEAR, MAXORDINAL. intros Hy Hm Hd.
  destruct (month_day_spec (is_leap y) m d Hm Hd) as [Hdoy _].
  pose proof (year_length y) as Hlen.
  unfold ymd2ord, days_before_month. unfold dbm_of in Hdoy.
  assert (0 <= days_before_year y /\ days_before_year (y + 1) <= 3652059)
    by (unfold days_before_year; cbv zeta; Z.div_mod_to_equations; lia).
  lia.
Qed.

Lemma valid_datetime_fields (d : datetime) :
  valid_datetime d = true ->
  (1 <= year d <= MAXYEAR /\ 1 <= month d <= 12
   /\ 1 <= day d <= days_in_month (year d) (month d))
  /\ 0 <= hour d <= 23 /\ 0 <= minute d <= 59 /\ 0 <= second d <= 59
  /\ 0 <= microsecond d <= 999999.
Proof.
  unfold valid_datetime, check_date_fields, check_time_fields, MINYEAR.
  rewrite !andb_true_iff, !Z.leb_le. lia.
Qed.

Lemma check_date_fields_true y m d :
  1 <= y <= MAXYEAR -> 1 <= m <= 12 -> 1 <= d <= days_in_month y m ->
  check_date_fields y m d = true.
Proof.
  unfold check_date_fields, MINYEAR.
  rewrite !andb_true_iff, !Z.leb_le. lia.
Qed.

Lemma monthrange_days_eq y m :
  1 <= m <= 12 -> monthrange_days y m = days_in_month y m /\ 1 <= days_in_month y m.
Proof.
  intros Hm. unfold monthrange_days, days_in_month.
  assert (Hall : Forall (fun m => 1 <= item DAYS_IN_MONTH m) (seqZ 1 12))
    by (apply (bool_decide_unpack _); vm_compute; exact I).
  rewrite Forall_forall in Hall.
  specialize (Hall m ltac:(apply elem_of_seqZ; lia)).
  destruct (Z.eqb_spec m 2) as [->|]; simpl; [|lia].
  change (item DAYS_IN_MONTH 2) with 28. destruct (is_leap y); lia.
Qed.

(** Adding whole days to a [datetime] moves its ordinal and keeps its time
    of day and its zone. *)
Lemma datetime_add_days (self : datetime) k :
  valid_datetime self = true ->
  0 < toordinal self + k <= MAXORDINAL ->
  datetime_add self (timedelta k 0 0 0 0)
  = let '(y, m, d) := ord2ymd (toordinal self + k) in
    Returns (mkDatetime y m d (hour self) (minute self) (second self)
               (microsecond self) (tzinfo self)).
Proof.
  intros Hv Hord. apply valid_datetime_fields in Hv as (_ & Hh & Hmi & Hs & Hus).
  unfold datetime_add, timedelta_add, timedelta. cbv zeta. simpl.
  set (N := toordinal self) in *.
  set (s := second self + minute self * 60 + hour self * 3600) in *.
  rewrite !Z.add_0_r.
  assert (microsecond self / 1000000 = 0) as -> by (Z.div_mod_to_equations; lia).
  assert (microsecond self mod 1000000 = microsecond self) as ->
      by (Z.div_mod_to_equations; lia).
  rewrite !Z.add_0_r.
  assert (s / 86400 = 0) as -> by (unfold s; Z.div_mod_to_equations; lia).
  assert (s mod 86400 = s) as -> by (unfold s; Z.div_mod_to_equations; lia).
  rewrite !Z.add_0_r.
  assert (microsecond self / 1000000 = 0) as -> by (Z.div_mod_to_equations; lia).
  assert (microsecond self mod 1000000 = microsecond self) as ->
      by (Z.div_mod_to_equations; lia).
  rewrite !Z.add_0_r.
  assert (s / 86400 = 0) as -> by (unfold s; Z.div_mod_to_equations; lia).
  assert (s mod 86400 = s) as -> by (unfold s; Z.div_mod_to_equations; lia).
  rewrite !Z.add_0_r.
  assert (s / 3600 = hour self) as -> by (unfold s; Z.div_mod_to_equations; lia).
  assert (s mod 3600 / 60 = minute self) as ->
      by (unfold s; Z.div_mod_to_equations; lia).
  assert (s mod 3600 mod 60 = second self) as ->
      by (unfold s; Z.div_mod_to_equations; lia).
  destruct (Z.ltb_spec 0 (N + k)); [|lia].
  destruct (Z.leb_spec (N + k) MAXORDINAL); [|lia].
  done.
Qed.

Lemma relativedelta_add_years_100 now :
  valid_datetime now = true -> year now + 100 <= MAXYEAR ->
  relativedelta_add (relativedelta_years 100) now = Returns (forever_until now).
Proof.
  intros Hv Hy.
  pose proof (valid_datetime_fields now Hv) as ((Hyr & Hm & Hd) & Hh & Hmi & Hs & Hus).
  destruct (monthrange_days_eq (year now + 100) (month now) Hm) as [Hmr Hpos].
  unfold relativedelta_add. simpl. rewrite Hmr.
  set (d' := Z.min (days_in_month (year now + 100) (month now)) (day now)).
  assert (Hd' : 1 <= d' <= days_in_month (year now + 100) (month now))
    by (unfold d'; lia).
  unfold replace_date.
  rewrite check_date_fields_true by (try done; lia).
  set (r := mkDatetime _ _ _ _ _ _ _ _).
  assert (Hvr : valid_datetime r = true).
  { unfold valid_datetime. simpl.
    rewrite check_date_fields_true by (try done; lia).
    unfold check_time_fields. rewrite !andb_true_iff, !Z.leb_le. lia. }
  pose proof (ymd2ord_bounds (year now + 100) (month now) d'
                ltac:(lia) Hm Hd') as Hb.
  rewrite (datetime_add_days r 0 Hvr) by (unfold toordinal; simpl; lia).
  unfold toordinal. simpl. rewrite Z.add_0_r.
  by rewrite ord2ymd_ymd2ord by (try done; lia).
Qed.

Lemma relativedelta_rsub_day now :
  valid_datetime now = true -> 1 < toordinal now ->
  exists until,
    relativedelta_rsub (relativedelta_days 1) now = Returns until
    /\ valid_datetime until = true
    /\ tzinfo until = tzinfo now
    /\ utc_seconds until = utc_seconds now - 86400.
Proof.
  intros Hv Hord.
  pose proof (valid_datetime_fields now Hv) as ((Hyr & Hm & Hd) & Hh & Hmi & Hs & Hus).
  destruct (monthrange_days_eq (year now) (month now) Hm) as [Hmr Hpos].
  unfold relativedelta_rsub, relativedelta_add. simpl.
  rewrite Z.add_0_r, Hmr, Z.min_r by lia.
  unfold replace_date.
  rewrite check_date_fields_true by (try done; lia).
  assert (mkDatetime (year now) (month now) (day now) (hour now) (minute now)
            (second now) (microsecond now) (tzinfo now) = now) as ->
      by by destruct now.
  pose proof (ymd2ord_bounds (year now) (month now) (day now)
                ltac:(lia) Hm Hd) as Hb.
  change (timedelta (- (1)) (- 0) (- 0) (- 0) (- 0))
    with (timedelta (-1) 0 0 0 0).
  rewrite (datetime_add_days now (-1) Hv) by (unfold toordinal in *; lia).
  pose proof (ymd2ord_prev_day (year now) (month now) (day now)
                ltac:(lia) Hm Hd Hord) as Hprev.
  destruct (prev_day (year now) (month now) (day now)) as [[y' m'] d'].
  destruct Hprev as (Hp & Hy' & Hm' & Hd').
  unfold toordinal at 1.
  replace (ymd2ord (year now) (month now) (day now) + -1)
    with (ymd2ord y' m' d') by lia.
  rewrite ord2ymd_ymd2ord by (try done; lia).
  eexists. split; [done|]. split_and!.
  - unfold valid_datetime. simpl.
    rewrite check_date_fields_true by (try done; lia).
    unfold check_time_fields. rewrite !andb_true_iff, !Z.leb_le. lia.
  - done.
  - unfold utc_seconds, toordinal. simpl. unfold toordinal in Hord. lia.
Qed.

Section Alerts.
Context {Item : Type} `{!Settings}.

Lemma acknowledge_an_alert_sends (a : Atlas Item) alert until comment w :
  exists data,
    (acknowledge_an_alert a alert until comment w).2
    = w ++ [mkRequest PATCH
              (BASE_URL ++ percent (api_resources "Alerts" "Acknowledge an Alert")
                             [AStr (group a); AStr alert])
              (Some data)]
    /\ data !! "acknowledgedUntil" = Some (isoformat_seconds until).
Proof.
  unfold acknowledge_an_alert, Network_patch, Network_request. simpl.
  destruct (truthy comment); eexists; (split; [done|]).
  - by rewrite lookup_insert_ne, lookup_singleton_eq.
  - by rewrite lookup_singleton_eq.
Qed.

(** C6.  [now] is the reading of the clock in UTC at the call.
    [acknowledge_an_alert_forever] sends one PATCH whose [acknowledgedUntil]
    is the date and time of day of [now] a hundred calendar years on, written
    out to the second with the offset [+00:00]; [unacknowledge_an_alert]
    sends one whose [acknowledgedUntil] is the UTC timestamp of the instant
    86400 seconds before [now] (whole seconds).  Both are absolute
    timestamps. *)
Theorem mute_until_timestamps (a : Atlas Item) alert comment now w :
  valid_datetime now = true -> tzinfo now = Some timezone_utc ->
  (year now + 100 <= MAXYEAR ->
   exists data,
     (acknowledge_an_alert_forever a alert comment now w).2
     = w ++ [mkRequest PATCH
               (BASE_URL ++ percent (api_resources "Alerts" "Acknowledge an Alert")
                              [AStr (group a); AStr alert])
               (Some data)]
     /\ data !! "acknowledgedUntil"
        = Some (fmt04d (year now + 100) ++ "-" ++ fmt02d (month now) ++ "-"
                ++ fmt02d (Z.min (days_in_month (year now + 100) (month now))
                                 (day now))
                ++ "T" ++ fmt02d (hour now) ++ ":" ++ fmt02d (minute now)
                ++ ":" ++ fmt02d (second now) ++ "+00:00")%string)
  /\ (1 < toordinal now ->
      exists until data,
        (unacknowledge_an_alert a alert now w).2
        = w ++ [mkRequest PATCH
                  (BASE_URL ++ percent (api_resources "Alerts" "Acknowledge an Alert")
                                 [AStr (group a); AStr alert])
                  (Some data)]
        /\ data !! "acknowledgedUntil" = Some (isoformat_seconds until)
        /\ valid_datetime until = true
        /\ tzinfo until = Some timezone_utc
        /\ utc_seconds until = utc_seconds now - 86400).
Proof.
  intros Hv Htz. split.
  - intros Hy.
    unfold acknowledge_an_alert_forever, bind, lift.
    rewrite (relativedelta_add_years_100 now Hv Hy).
    destruct (acknowledge_an_alert_sends a alert (forever_until now) comment w)
      as (data & Hsent & Hdata).
    exists data. split; [done|].
    rewrite Hdata. unfold isoformat_seconds, forever_until. simpl.
    by rewrite Htz.
  - intros Hord.
    destruct (relativedelta_rsub_day now Hv Hord) as (until & Hu & Hvu & Htu & Hsec).
    unfold unacknowledge_an_alert, bind, lift. rewrite Hu.
    destruct (acknowledge_an_alert_sends a alert until None w)
      as (data & Hsent & Hdata).
    exists until, data. split_and!; try done. congruence.
Qed.

End Alerts.

(** * Properties of the resource layer *)

Section ResourceFacts.
Context {Item : Type} `{!Settings}.
Implicit Types (a : Atlas Item) (w : calls).

Lemma checkAndRaise_outside p n w :
  n < itemsPerPageMin \/ itemsPerPageMax < n ->
  checkAndRaise p n w = (Raises ErrPaginationLimits, w).
Proof.
  intros Hout. unfold checkAndRaise.
  destruct (Z.ltb_spec n itemsPerPageMin), (Z.ltb_spec itemsPerPageMax n);
    simpl; (done || lia).
Qed.

(** C5.  With [itemsPerPage] below the minimum or above the maximum, each
    of the five "get all" operations, asked for an iterable or for the
    payload, raises [ErrPaginationLimits] and leaves the transport's record
    of calls as it was: nothing was sent. *)
Theorem out_of_limits_no_call a status p n iterable w :
  n < itemsPerPageMin \/ itemsPerPageMax < n ->
  get_all_clusters a p n iterable w = (Raises ErrPaginationLimits, w)
  /\ get_all_whitelist_entries a p n iterable w = (Raises ErrPaginationLimits, w)
  /\ get_all_database_users a p n iterable w = (Raises ErrPaginationLimits, w)
  /\ get_all_projects a p n iterable w = (Raises ErrPaginationLimits, w)
  /\ get_all_alerts a status p n iterable w = (Raises ErrPaginationLimits, w).
Proof.
  intros Hout.
  unfold get_all_clusters, get_all_whitelist_entries, get_all_database_users,
    get_all_projects, get_all_alerts, bind.
  by rewrite (checkAndRaise_outside p n w Hout).
Qed.

(** C4, as the code has it.  [delete_a_cluster] without [areYouSure] raises
    [ErrConfirmationRequested] and sends nothing.  [delete_a_database_user]
    takes no such flag: every call of it sends one DELETE to the transport
    and returns what the transport answers. *)
Theorem delete_confirmation a cluster user w :
  (exists message,
      delete_a_cluster a cluster false w
      = (Raises (ErrConfirmationRequested message), w))
  /\ delete_a_database_user a user w
     = let r := mkRequest DELETE
                  (BASE_URL ++ percent
                     (api_resources "Database Users" "Delete a Database User")
                     [AStr (group a); AStr user])
                  None in
       (respond (network a) w r, w ++ [r]).
Proof. split; [by eexists|done]. Qed.

End ResourceFacts.

(** * Further properties of the pagination engine *)

Section MoreTraversal.
Context {Item W F : Type} `{!Callable Item W F}.
Implicit Types (self : AtlasPagination Item F) (g : generator Item F) (w : W).

(** X1.  With a page size of zero or less the loop is never entered: the
    first pull already finds the traversal over, no fetch is made and
    nothing is yielded, whatever the binding and the starting page. *)
Theorem no_fetch_without_page_size self k fuel w :
  itemsPerPage self <= 0 ->
  pulls (S k) fuel (__iter__ self) w
  = (replicate (S k) StopIteration, mkGenerator self Closed, w).
Proof.
  intros Hn.
  apply (pulls_finished (__iter__ self) (pageNum self)
           (pageNum self * itemsPerPage self)).
  - apply enters_created.
  - simpl. lia.
Qed.

(** Whatever the outer loop raises, it leaves the frame closed. *)
Lemma fetch_loop_raise_closed fuel self p total w e :
  (fetch_loop fuel self p total w).1.1.1 = Raise e ->
  (fetch_loop fuel self p total w).1.2 = Closed.
Proof.
  revert p total w. induction fuel as [|fuel IH]; intros p total w; simpl.
  - by destruct (_ <? _).
  - destruct (_ <? _); [|done].
    destruct (call _ _ _ _) as [[details|e0] w']; [|done].
    destruct (totalCount details); [|done].
    destruct (results details) as [rs|]; [|done].
    unfold page_loop. destruct (_ <? _)%nat; [|apply IH].
    by destruct (rs !! 0%nat).
Qed.

Lemma next_raise_closed fuel g w e :
  (next fuel g w).1.1 = Raise e ->
  (next fuel g w).1.2 = mkGenerator (gi_self g) Closed.
Proof.
  pose proof (next_self fuel g w) as Hself. revert Hself.
  unfold next. destruct (gi_frame g) as [|p t rs c i|]; simpl.
  - pose proof (fetch_loop_raise_closed fuel (gi_self g) (pageNum (gi_self g))
                  (pageNum (gi_self g) * itemsPerPage (gi_self g)) w e) as Hfl.
    destruct (fetch_loop _ _ _ _ _) as [[[r s] fr] w']. simpl in *.
    intros -> Hr. by rewrite Hfl.
  - unfold page_loop. destruct (_ <? _)%nat.
    + by destruct (rs !! i).
    + pose proof (fetch_loop_raise_closed fuel (gi_self g) (p + 1) t w e) as Hfl.
      destruct (fetch_loop _ _ _ _ _) as [[[r s] fr] w']. simpl in *.
      intros -> Hr. by rewrite Hfl.
  - done.
Qed.

Lemma pulls_after_raise k fuel : forall g w i e,
  (pulls k fuel g w).1.1 !! i = Some (Raise e) ->
  (forall j, (i < j < k)%nat ->
             (pulls k fuel g w).1.1 !! j = Some StopIteration)
  /\ (pulls k fuel g w).1.2 = mkGenerator (gi_self g) Closed
  /\ (pulls k fuel g w).2 = (pulls (S i) fuel g w).2.
Proof.
  induction k as [|k IH]; intros g w i e; [done|].
  rewrite (pulls_S i), pulls_S.
  pose proof (next_raise_closed fuel g w) as Hraise.
  pose proof (next_self fuel g w) as Hself.
  destruct (next fuel g w) as [[r g'] w']. simpl in Hraise, Hself.
  destruct i as [|i]; simpl.
  - destruct (pulls k fuel g' w') as [[rs g''] w''] eqn:Hpulls. simpl.
    intros [= ->]. rewrite (Hraise e eq_refl), pulls_closed in Hpulls.
    injection Hpulls as <- <- <-.
    split; [|done]. intros j Hj.
    destruct j as [|j]; [lia|]. simpl. apply lookup_replicate_2. lia.
  - specialize (IH g' w' i e). rewrite pulls_S in IH.
    destruct (pulls k fuel g' w') as [[rs g''] w'']. simpl in *.
    intros Hi. destruct (IH Hi) as (Hafter & Hg'' & Hw'').
    split; [|split].
    + intros j Hj. destruct j as [|j]; [lia|]. simpl. apply Hafter. lia.
    + by rewrite Hg'', Hself.
    + rewrite Hw''.
      destruct (next fuel g' w') as [[r1 g1] w1].
      by destruct (pulls i fuel g1 w1) as [[rs1 g2] w2].
Qed.

(** X4.  A traversal raises at most once.  In any run of pulls on a fresh
    generator, after a pull that raised every later pull returns
    [StopIteration], the generator is closed, and the world is as the
    raising pull left it: no fetch is made after the failure. *)
Theorem traversal_raises_once self k fuel w i e :
  (pulls k fuel (__iter__ self) w).1.1 !! i = Some (Raise e) ->
  (forall j, (i < j < k)%nat ->
             (pulls k fuel (__iter__ self) w).1.1 !! j = Some StopIteration)
  /\ (pulls k fuel (__iter__ self) w).1.2 = mkGenerator self Closed
  /\ (pulls k fuel (__iter__ self) w).2
     = (pulls (S i) fuel (__iter__ self) w).2.
Proof. apply (pulls_after_raise k fuel (__iter__ self)). Qed.

(** X14.  The items of a page in hand are handed out one per pull, in
    order, without any fetch: the world is as it was when the last of them
    has been yielded, and the binding is called again only behind it. *)
Theorem page_in_hand_needs_no_fetch fuel self pageNum total (rs : list Item) i w :
  (i <= length rs)%nat ->
  pulls (length rs - i) fuel
    (mkGenerator self (Suspended pageNum total rs (length rs) i)) w
  = (Yield <$> drop i rs,
     mkGenerator self (Suspended pageNum total rs (length rs) (length rs)), w).
Proof. apply pulls_page. Qed.

End MoreTraversal.

Section MoreDoubleTraversal.
Context {Item : Type}.
Implicit Types (d : FetchDouble Item) (log : list (Z * Z))
  (self : AtlasPagination Item (FetchDouble Item))
  (g : generator Item (FetchDouble Item)).

(** X2.  [pageNum] is the page asked for, "so not necessary 1": over a
    binding that serves a collection in pages of [n >= 1] items, the
    traversal started at page [p >= 1] yields the items from the
    [(p - 1) * n]-th on, in order, then stops, and fetches pages [p],
    [p + 1], ... one each: as many as the items left need, and one when
    none is left. *)
Theorem traversal_from_page (coll : list Item) n d (a : Atlas Item) p k fuel log :
  1 <= n ->
  (forall log p, 1 <= p -> behaviour d log p n = Returns (page_of coll p n)) ->
  1 <= p -> (1 <= fuel)%nat ->
  pulls (length (drop (Z.to_nat ((p - 1) * n)) coll) + S k) fuel
    (__iter__ (AtlasPagination_init a d p n)) log
  = ((Yield <$> drop (Z.to_nat ((p - 1) * n)) coll)
       ++ replicate (S k) StopIteration,
     mkGenerator (AtlasPagination_init a d p n) Closed,
     log ++ ((fun q => (q, n)) <$>
               seqZ p (expected_fetches
                         (Z.of_nat (length coll) - (p - 1) * n) n))).
Proof.
  intros Hn Hd Hp Hfuel.
  apply (traverse_from coll n d Hn Hd
           (Z.to_nat (Z.of_nat (length coll) - (p - 1) * n)) p
           (__iter__ (AtlasPagination_init a d p n)) (p * n) log k fuel);
    first [done | lia
          | apply (enters_created (AtlasPagination_init a d p n))].
Qed.

(** X3.  The rule for going on, behind the last item of page [q] whose
    payload gave [total]: page [q + 1] is fetched exactly when
    [q * itemsPerPage < total]; otherwise the traversal is over and no fetch
    is made. *)
Theorem next_page_rule self q total (rs : list Item) log fuel :
  let g := mkGenerator self
             (Suspended q total rs (length rs) (length rs)) in
  (q * itemsPerPage self < total ->
   exists more,
     (next (S fuel) g log).2 = log ++ (q + 1, itemsPerPage self) :: more)
  /\ (total <= q * itemsPerPage self ->
      next fuel g log = (StopIteration, mkGenerator self Closed, log)).
Proof.
  intros g. split.
  - intros Hlt. unfold g. rewrite (enters_page_end self q total rs). simpl.
    destruct (Z.ltb_spec ((q + 1) * itemsPerPage self - total)
                (itemsPerPage self)); [|lia].
    destruct (behaviour _ _ _ _) as [details|e]; [|by exists []].
    destruct (totalCount details); [|by exists []].
    destruct (results details) as [rs'|]; [|by exists []].
    destruct (page_loop _ _ _ _ _) as [[r fr]|]; [by exists []|].
    destruct (fetch_loop_log fuel self (q + 1 + 1) z
                (log ++ [(q + 1, itemsPerPage self)])) as [more Hmore].
    exists more.
    destruct (fetch_loop _ _ _ _ _) as [[[r s] fr] w']. simpl in *.
    by rewrite Hmore, <- app_assoc.
  - intros Hge. unfold g. rewrite (enters_page_end self q total rs). simpl.
    by rewrite fetch_loop_stop by lia.
Qed.

Lemma page_calls_S p n j :
  page_calls p n (S j) = page_calls p n j ++ [(p + Z.of_nat j, n)].
Proof.
  unfold page_calls.
  replace (Z.of_nat (S j)) with (Z.of_nat j + 1) by lia.
  rewrite seqZ_app by lia. rewrite fmap_app. simpl. done.
Qed.

Lemma fetch_loop_log_ok fuel self w0 p j total log :
  log = w0 ++ page_calls (pageNum self) (itemsPerPage self) j ->
  p = pageNum self + Z.of_nat j ->
  let '(_, _, fr, log') := fetch_loop fuel self p total log in
  log_ok w0 (pageNum self) (itemsPerPage self) fr log'.
Proof.
  revert p j total log.
  induction fuel as [|fuel IH]; intros p j total log Hlog Hp; simpl.
  - destruct (_ <? _); by exists j.
  - destruct (_ <? _); [|by exists j].
    assert (Hlog' : log ++ [(p, itemsPerPage self)]
                    = w0 ++ page_calls (pageNum self) (itemsPerPage self) (S j))
      by (rewrite page_calls_S, Hlog, Hp; by rewrite app_assoc).
    destruct (behaviour _ _ _ _) as [details|e]; [|by exists (S j)].
    destruct (totalCount details); [|by exists (S j)].
    destruct (results details) as [rs|]; [|by exists (S j)].
    unfold page_loop.
    destruct (_ <? _)%nat.
    + destruct (rs !! 0%nat); exists (S j); (split; [done|]); [lia|done].
    + apply (IH (p + 1) (S j)); [done|lia].
Qed.

Lemma next_log_ok fuel g w0 log :
  log_ok w0 (pageNum (gi_self g)) (itemsPerPage (gi_self g)) (gi_frame g) log ->
  log_ok w0 (pageNum (gi_self g)) (itemsPerPage (gi_self g))
    (gi_frame (next fuel g log).1.2) (next fuel g log).2.
Proof.
  intros (j & Hlog & Hfr). unfold next.
  destruct (gi_frame g) as [|q t rs c i|]; simpl.
  - subst j.
    pose proof (fetch_loop_log_ok fuel (gi_self g) w0 (pageNum (gi_self g)) 0
                  (pageNum (gi_self g) * itemsPerPage (gi_self g)) log Hlog
                  ltac:(lia)) as H.
    by destruct (fetch_loop _ _ _ _ _) as [[[r s] fr] w'].
  - unfold page_loop. destruct (_ <? _)%nat.
    + destruct (rs !! i); by exists j.
    + pose proof (fetch_loop_log_ok fuel (gi_self g) w0 (q + 1) j t log Hlog
                    ltac:(lia)) as H.
      by destruct (fetch_loop _ _ _ _ _) as [[[r s] fr] w'].
  - by exists j.
Qed.

(** X5.  Whatever the binding answers, the fetch calls of a traversal are
    those of consecutive pages from the starting page on, each page once
    and in order, all with the object's [itemsPerPage]: no page is skipped,
    fetched twice or fetched with another size. *)
Theorem fetches_are_consecutive d (a : Atlas Item) p n k fuel log :
  exists j : nat,
    (pulls k fuel (__iter__ (AtlasPagination_init a d p n)) log).2
    = log ++ ((fun q => (q, n)) <$> seqZ p (Z.of_nat j)).
Proof.
  set (self := AtlasPagination_init a d p n).
  assert (Hgen : forall k g log',
             gi_self g = self ->
             log_ok log p n (gi_frame g) log' ->
             exists j : nat,
               (pulls k fuel g log').2 = log ++ page_calls p n j).
  { clear k. induction k as [|k IH]; intros g log' Hself Hok.
    - destruct Hok as (j & -> & _). by exists j.
    - rewrite pulls_S.
      pose proof (next_log_ok fuel g log log') as Hnext.
      rewrite Hself in Hnext. specialize (Hnext Hok).
      pose proof (next_self fuel g log') as Hs.
      destruct (next fuel g log') as [[r g'] w']. simpl in Hnext, Hs.
      destruct (IH g' w' ltac:(congruence) Hnext) as [j Hj].
      exists j. by destruct (pulls k fuel g' w') as [[rs g''] w'']. }
  apply Hgen; [done|]. exists 0%nat. split; [|done].
  unfold page_calls. simpl. by rewrite app_nil_r.
Qed.

End MoreDoubleTraversal.

(** ** Pages of any content under a constant [totalCount] *)

Section AnyPages.
Context {Item : Type} (n T : Z) (rs : Z -> list Item) (d : FetchDouble Item).
Hypothesis Hn : 1 <= n.
Hypothesis Hd :
  forall log q, behaviour d log q n = Returns (mkPage (Some T) (Some (rs q))).

Implicit Types (self : AtlasPagination Item (FetchDouble Item))
  (g : generator Item (FetchDouble Item)) (log : list (Z * Z)).

Lemma pulls_enters g p total k fuel log :
  enters g p total ->
  pulls (S k) fuel g log = loop_then_pulls fuel fuel k (gi_self g) p total log.
Proof.
  intros Hg. rewrite pulls_S, Hg. unfold loop_then_pulls.
  by destruct (fetch_loop _ _ _ _ _) as [[[r s] fr] w'].
Qed.

Lemma loop_run fuel self (j : nat) : forall p total log f k,
  fetch self = d -> itemsPerPage self = n ->
  (S j <= f)%nat -> (S j <= fuel)%nat ->
  p * n - total < n ->
  (forall q, p <= q < p + Z.of_nat j -> q * n < T) ->
  T <= (p + Z.of_nat j) * n ->
  loop_then_pulls f fuel (length (concat (rs <$> seqZ p (Z.of_nat j + 1))) + k)
    self p total log
  = ((Yield <$> concat (rs <$> seqZ p (Z.of_nat j + 1)))
       ++ replicate (S k) StopIteration,
     mkGenerator self Closed,
     log ++ page_calls p n (S j)).
Proof.
  induction j as [|j IH]; intros p total log f k Hf Hipp Hfj Hfuel Hlt Hmore Hlast.
  all: destruct f as [|f]; [lia|].
  all: assert (Hc : call (fetch self) p (itemsPerPage self) log
                = (Returns (mkPage (Some T) (Some (rs p))), log ++ [(p, n)]))
         by (rewrite Hf, Hipp; unfold call, FetchDouble_call; by rewrite Hd).
  all: assert (Hlt' : p * itemsPerPage self - total < itemsPerPage self)
         by (rewrite Hipp; lia).
  all: unfold loop_then_pulls;
       rewrite (fetch_loop_page _ _ _ _ _ _ _ _ Hlt' Hc).
  - (* page [p] is the last *)
    change (Z.of_nat 0 + 1) with 1.
    rewrite (seqZ_cons p) by lia. change (Z.pred 1) with 0.
    rewrite fmap_cons. simpl concat. rewrite !app_nil_r.
    destruct (rs p) as [|x l] eqn:Hrs.
    + rewrite fetch_loop_stop by (rewrite Hipp; lia).
      simpl. rewrite pulls_closed. by unfold page_calls.
    + cbv beta iota.
      replace (length (x :: l) + k)%nat
        with ((length (x :: l) - 1) + S k)%nat by (simpl; lia).
      rewrite pulls_app, pulls_page by (simpl; lia).
      rewrite (pulls_finished _ (p + 1) T)
        by (first [apply enters_page_end | simpl; rewrite Hipp; lia]).
      simpl. rewrite drop_0. by unfold page_calls.
  - (* more pages follow *)
    rewrite (seqZ_cons p) by lia.
    replace (Z.pred (Z.of_nat (S j) + 1)) with (Z.of_nat (S j)) by lia.
    rewrite fmap_cons. simpl concat.
    assert (HIH : forall f' k', (S j <= f')%nat ->
              loop_then_pulls f' fuel
                (length (concat (rs <$> seqZ (Z.succ p) (Z.of_nat (S j)))) + k')
                self (p + 1) T (log ++ [(p, n)])
              = ((Yield <$> concat (rs <$> seqZ (Z.succ p) (Z.of_nat (S j))))
                   ++ replicate (S k') StopIteration,
                 mkGenerator self Closed,
                 (log ++ [(p, n)]) ++ page_calls (p + 1) n (S j))).
    { intros f' k' Hf'.
      replace (Z.succ p) with (p + 1) by lia.
      replace (Z.of_nat (S j)) with (Z.of_nat j + 1) by lia.
      apply IH; try done; try lia.
      - pose proof (Hmore p). lia.
      - intros q Hq. apply Hmore. lia. }
    assert (Hcalls : (log ++ [(p, n)]) ++ page_calls (p + 1) n (S j)
                     = log ++ page_calls p n (S (S j))).
    { unfold page_calls.
      replace (Z.of_nat (S (S j))) with (Z.succ (Z.of_nat (S j))) by lia.
      rewrite (seqZ_cons p) by lia.
      rewrite Z.pred_succ, fmap_cons, <- app_assoc.
      by rewrite Z.add_1_r. }
    rewrite <- Hcalls.
    destruct (rs p) as [|x l] eqn:Hrs.
    + simpl app. apply (HIH f k). lia.
    + cbv beta iota.
      replace (length ((x :: l) ++ concat (rs <$> seqZ (Z.succ p) (Z.of_nat (S j))))
               + k)%nat
        with ((length (x :: l) - 1)
              + S (length (concat (rs <$> seqZ (Z.succ p) (Z.of_nat (S j)))) + k))%nat
        by (rewrite length_app; simpl; lia).
      rewrite pulls_app, pulls_page by (simpl; lia).
      rewrite (pulls_enters _ (p + 1) T) by apply enters_page_end.
      simpl gi_self. rewrite (HIH fuel k) by lia.
      by rewrite fmap_app, <- !app_assoc.
Qed.

(** X13.  What is fetched depends on [totalCount] and the page size alone.
    A binding that reports the same [totalCount] on every page, whatever it
    puts in [results] (short pages, empty pages, too many items): the
    traversal from page 1 yields the results of pages
    [1 .. expected_fetches totalCount n] one after the other, in order, and
    fetches exactly those pages; a short or empty page does not end it, a
    full one does not prolong it. *)
Theorem traversal_follows_totalCount (a : Atlas Item) k fuel log :
  let pages := seqZ 1 (expected_fetches T n) in
  (Z.to_nat (expected_fetches T n) <= fuel)%nat ->
  pulls (length (concat (rs <$> pages)) + S k) fuel
    (__iter__ (AtlasPagination_init a d 1 n)) log
  = ((Yield <$> concat (rs <$> pages)) ++ replicate (S k) StopIteration,
     mkGenerator (AtlasPagination_init a d 1 n) Closed,
     log ++ ((fun q => (q, n)) <$> pages)).
Proof.
  intros pages Hfuel. subst pages.
  set (self := AtlasPagination_init a d 1 n).
  pose proof (expected_fetches_pos n T) as Hpos.
  set (N := expected_fetches T n) in *.
  destruct (Z.to_nat N) as [|j] eqn:HN; [lia|].
  assert (HNj : N = Z.of_nat (S j)) by lia.
  assert (Hbounds : (forall q, 1 <= q < 1 + Z.of_nat j -> q * n < T)
                    /\ T <= (1 + Z.of_nat j) * n).
  { unfold N, expected_fetches in HNj.
    assert (Hdiv : (T + n - 1) / n * n <= T + n - 1 < ((T + n - 1) / n + 1) * n)
      by (pose proof (Z.mul_div_le (T + n - 1) n ltac:(lia));
          pose proof (Z.mul_succ_div_gt (T + n - 1) n ltac:(lia)); lia).
    split; [intros q Hq|]; nia. }
  destruct Hbounds as [Hmore Hlast].
  replace (length (concat (rs <$> seqZ 1 N)) + S k)%nat
    with (S (length (concat (rs <$> seqZ 1 N)) + k)) by lia.
  rewrite (pulls_enters _ 1 (1 * n)) by apply (enters_created self).
  rewrite HNj. simpl gi_self.
  replace (Z.of_nat (S j)) with (Z.of_nat j + 1) by lia.
  rewrite (loop_run fuel self j 1 (1 * n) log fuel k); try done; try lia.
  unfold page_calls. by replace (Z.of_nat (S j)) with (Z.of_nat j + 1) by lia.
Qed.

End AnyPages.

(** ** A collection served page by page, through any callable *)

Section CallTraversal.
Context {Item W F : Type} `{!Callable Item W F}.
Context (coll : list Item) (n : Z) (f : F) (record : W -> Z -> W).
Hypothesis Hn : 1 <= n.
Hypothesis Hcall :
  forall w p,
    1 <= p <= expected_fetches (Z.of_nat (length coll)) n ->
    call f p n w = (Returns (page_of coll p n), record w p).

Implicit Types (g : generator Item F) (w : W).

Lemma traverse_from_call (r : nat) : forall p g total w k fuel,
  (1 <= fuel)%nat ->
  1 <= p <= expected_fetches (Z.of_nat (length coll)) n ->
  fetch (gi_self g) = f -> itemsPerPage (gi_self g) = n ->
  enters g p total ->
  p * n - total < n ->
  (Z.to_nat (Z.of_nat (length coll) - (p - 1) * n) <= r)%nat ->
  pulls (length (drop (Z.to_nat ((p - 1) * n)) coll) + S k) fuel g w
  = ((Yield <$> drop (Z.to_nat ((p - 1) * n)) coll)
       ++ replicate (S k) StopIteration,
     mkGenerator (gi_self g) Closed,
     foldl record w
       (seqZ p (expected_fetches (Z.of_nat (length coll) - (p - 1) * n) n))).
Proof.
  induction r as [|r IH]; intros p g total w k fuel Hfuel [Hp HpN] Hf Hipp Hg Hlt Hr.
  all: destruct fuel as [|fuel]; [lia|].
  all: assert (Hofs : 0 <= (p - 1) * n) by nia.
  all: set (T := Z.of_nat (length coll)) in *.
  all: set (rs := take (Z.to_nat n) (drop (Z.to_nat ((p - 1) * n)) coll)).
  all: assert (Hc : call (fetch (gi_self g)) p (itemsPerPage (gi_self g)) w
                = (Returns (mkPage (Some T) (Some rs)), record w p)).
  1,3: rewrite Hf, Hipp; by rewrite Hcall.
  all: pose proof (page_of_length coll n Hn p Hp) as Hlen; fold rs T in Hlen.
  all: assert (Hlt' : p * itemsPerPage (gi_self g) - total < itemsPerPage (gi_self g))
         by (rewrite Hipp; lia).
  all: destruct (Z_le_gt_dec (T - (p - 1) * n) 0) as [HR|HR]; [| try lia].
  1,2: assert (rs = []) as Hrs by (apply length_zero_iff_nil; lia);
    rewrite drop_ge by lia; simpl length; simpl fmap; simpl app;
    rewrite Nat.add_0_l, pulls_S, Hg, (fetch_loop_page _ _ _ _ _ _ _ _ Hlt' Hc), Hrs;
    rewrite fetch_loop_stop by (rewrite Hipp; lia);
    rewrite pulls_closed, (expected_fetches_last n Hn) by lia;
    done.
  destruct rs as [|x rs'] eqn:Hrs; [simpl in Hlen; lia|].
  assert (Hsplit : drop (Z.to_nat ((p - 1) * n)) coll
                   = (x :: rs') ++ drop (Z.to_nat ((p + 1 - 1) * n)) coll).
  { rewrite <- Hrs. unfold rs.
    rewrite <- (take_drop (Z.to_nat n) (drop (Z.to_nat ((p - 1) * n)) coll)) at 1.
    rewrite drop_drop. do 2 f_equal. lia. }
  rewrite Hsplit.
  replace (length ((x :: rs') ++ drop (Z.to_nat ((p + 1 - 1) * n)) coll) + S k)%nat
    with (S ((length (x :: rs') - 1)
             + (length (drop (Z.to_nat ((p + 1 - 1) * n)) coll) + S k)))%nat
    by (rewrite length_app; simpl; lia).
  rewrite pulls_S, Hg, (fetch_loop_page _ _ _ _ _ _ _ _ Hlt' Hc).
  rewrite pulls_app, pulls_page by (simpl; lia).
  set (g' := mkGenerator (gi_self g)
               (Suspended p T (x :: rs') (length (x :: rs')) (length (x :: rs')))).
  assert (Hg' : enters g' (p + 1) T) by apply enters_page_end.
  destruct (Z_lt_ge_dec (p * n) T) as [Hmore|Hlast].
  - assert (p + 1 <= expected_fetches T n).
    { unfold expected_fetches.
      assert (p + 1 <= (T + n - 1) / n); [|lia].
      apply Z.div_le_lower_bound; lia. }
    rewrite (IH (p + 1) g' T (record w p) k (S fuel)); try done; try lia.
    rewrite (expected_fetches_more n Hn (T - (p - 1) * n)) by lia.
    pose proof (expected_fetches_pos n (T - (p - 1) * n - n)).
    rewrite (seqZ_cons p) by lia.
    rewrite fmap_app. simpl.
    rewrite <- !app_assoc. simpl.
    rewrite Z.add_1_l, Z.pred_succ, Z.add_1_r.
    by replace (T - (Z.succ p - 1) * n) with (T - (p - 1) * n - n) by lia.
  - rewrite drop_ge by lia. simpl length. rewrite Nat.add_0_l.
    rewrite (pulls_finished g' (p + 1) T) by (try done; simpl; rewrite ?Hipp; lia).
    rewrite (expected_fetches_last n Hn) by lia.
    rewrite fmap_app. simpl. by rewrite app_nil_r.
Qed.

End CallTraversal.

(** * Further properties of the resource layer *)

Section MoreResourceFacts.
Context {Item : Type} `{!Settings}.
Implicit Types (a : Atlas Item) (w : calls) (m : bound_method Item).

Lemma checkAndRaise_cases p n w :
  checkAndRaise p n w = (Returns tt, w)
  \/ checkAndRaise p n w = (Raises ErrPaginationLimits, w).
Proof. unfold checkAndRaise. destruct (_ || _); [by right|by left]. Qed.

Lemma call_bound_passes m q n w :
  checkAndRaise q n w = (Returns tt, w) ->
  call m q n w
  = (respond (network (method_atlas m)) w (page_request m q n),
     w ++ [page_request m q n]).
Proof.
  intros Hc.
  destruct m as [a|a|a|a|a status]; unfold call, bound_method_call,
    get_all_clusters, get_all_whitelist_entries, get_all_database_users,
    get_all_projects, get_all_alerts, bind; by rewrite Hc.
Qed.

(** A bound "get all" either is refused by the limits check and sends
    nothing, or sends the request of its page and returns the answer. *)
Lemma call_bound_method m q n w :
  call m q n w = (Raises ErrPaginationLimits, w)
  \/ call m q n w
     = (respond (network (method_atlas m)) w (page_request m q n),
        w ++ [page_request m q n]).
Proof.
  destruct (checkAndRaise_cases q n w) as [Hc|Hc]; [right|left].
  all: destruct m as [a|a|a|a|a status]; unfold call, bound_method_call,
         get_all_clusters, get_all_whitelist_entries, get_all_database_users,
         get_all_projects, get_all_alerts, bind; by rewrite Hc.
Qed.

Lemma fetch_loop_requests_ok fuel
    (self : AtlasPagination Item (bound_method Item)) w0 p j total w :
  w = w0 ++ page_requests (fetch self) (pageNum self) (itemsPerPage self) j ->
  p = pageNum self + Z.of_nat j ->
  let '(_, _, fr, w') := fetch_loop fuel self p total w in
  requests_ok w0 (fetch self) (pageNum self) (itemsPerPage self) fr w'.
Proof.
  revert p j total w.
  induction fuel as [|fuel IH]; intros p j total w Hw Hp; simpl.
  - destruct (_ <? _); by exists j.
  - destruct (_ <? _); [|by exists j].
    assert (Hw' : w ++ [page_request (fetch self) p (itemsPerPage self)]
                  = w0 ++ page_requests (fetch self) (pageNum self)
                            (itemsPerPage self) (S j)).
    { unfold page_requests in *.
      replace (Z.of_nat (S j)) with (Z.of_nat j + 1) by lia.
      rewrite seqZ_app by lia. rewrite fmap_app, Hw, Hp. simpl.
      by rewrite app_assoc. }
    destruct (call_bound_method (fetch self) p (itemsPerPage self) w) as [->| ->].
    { by exists j. }
    destruct (respond _ _ _) as [details|e]; [|by exists (S j)].
    destruct (totalCount details); [|by exists (S j)].
    destruct (results details) as [rs|]; [|by exists (S j)].
    unfold page_loop.
    destruct (_ <? _)%nat.
    + destruct (rs !! 0%nat); exists (S j); (split; [done|]); [lia|done].
    + apply (IH (p + 1) (S j)); [done|lia].
Qed.

Lemma next_requests_ok fuel (g : generator Item (bound_method Item)) w0 w :
  requests_ok w0 (fetch (gi_self g)) (pageNum (gi_self g))
    (itemsPerPage (gi_self g)) (gi_frame g) w ->
  requests_ok w0 (fetch (gi_self g)) (pageNum (gi_self g))
    (itemsPerPage (gi_self g))
    (gi_frame (next fuel g w).1.2) (next fuel g w).2.
Proof.
  intros (j & Hw & Hfr). unfold next.
  destruct (gi_frame g) as [|q t rs c i|]; simpl.
  - subst j.
    pose proof (fetch_loop_requests_ok fuel (gi_self g) w0
                  (pageNum (gi_self g)) 0
                  (pageNum (gi_self g) * itemsPerPage (gi_self g)) w Hw
                  ltac:(lia)) as Hfl.
    by destruct (fetch_loop _ _ _ _ _) as [[[r s] fr] w'].
  - unfold page_loop. destruct (_ <? _)%nat.
    + destruct (rs !! i); by exists j.
    + pose proof (fetch_loop_requests_ok fuel (gi_self g) w0 (q + 1) j t w Hw
                    ltac:(lia)) as Hfl.
      by destruct (fetch_loop _ _ _ _ _) as [[[r s] fr] w'].
  - by exists j.
Qed.

(** X6.  A traversal over any of the five bound "get all" methods sends the
    transport nothing but that method's GET page requests, for consecutive
    pages from the starting page on, each once and in order, with the
    object's [itemsPerPage] (for the alerts: with the status when it is
    truthy, with the plain template when it is [None] or empty).  It never
    sends a POST, a PATCH or a DELETE. *)
Theorem traversal_sends_page_requests m a p n k fuel w :
  exists j : nat,
    (pulls k fuel (__iter__ (AtlasPagination_init a m p n)) w).2
    = w ++ ((fun q => page_request m q n) <$> seqZ p (Z.of_nat j))
    /\ Forall (fun r => verb r = GET)
         ((fun q => page_request m q n) <$> seqZ p (Z.of_nat j)).
Proof.
  set (self := AtlasPagination_init a m p n).
  assert (Hgen : forall k (g : generator Item (bound_method Item)) w',
             gi_self g = self ->
             requests_ok w m p n (gi_frame g) w' ->
             exists j : nat,
               (pulls k fuel g w').2 = w ++ page_requests m p n j).
  { clear k. induction k as [|k IH]; intros g w' Hself Hok.
    - destruct Hok as (j & -> & _). by exists j.
    - rewrite pulls_S.
      pose proof (next_requests_ok fuel g w w') as Hnext.
      rewrite Hself in Hnext. specialize (Hnext Hok).
      pose proof (next_self fuel g w') as Hs.
      destruct (next fuel g w') as [[r g'] w'']. simpl in Hnext, Hs.
      destruct (IH g' w'' ltac:(congruence) Hnext) as [j Hj].
      exists j. by destruct (pulls k fuel g' w'') as [[rs g''] w3]. }
  destruct (Hgen k (__iter__ self) w eq_refl) as [j Hj].
  { exists 0%nat. split; [|done].
    unfold page_requests. simpl. by rewrite app_nil_r. }
  exists j. split; [done|].
  apply Forall_fmap, Forall_forall. by intros q _.
Qed.

Lemma foldl_requests m n (l : list Z) w :
  foldl (fun w q => w ++ [page_request m q n]) w l
  = w ++ ((fun q => page_request m q n) <$> l).
Proof.
  revert w. induction l as [|q l IH]; intros w; simpl.
  - by rewrite app_nil_r.
  - by rewrite IH, <- app_assoc.
Qed.

(** X7.  Through the resource layer, end to end.  The limits check lets
    [n >= 1] through and the transport answers the request of each page [q]
    of a bound "get all", up to the last page the collection has, with page
    [q] of the collection and its size: the
    traversal from page 1 yields the collection, whole and in order, then
    stops, having sent the GET requests of pages [1 .. expected_fetches] and
    nothing else. *)
Theorem traversal_through_transport m a (coll : list Item) n k fuel w :
  1 <= n ->
  (forall q w, checkAndRaise q n w = (Returns tt, w)) ->
  (forall log q, 1 <= q <= expected_fetches (Z.of_nat (length coll)) n ->
     respond (network (method_atlas m)) log (page_request m q n)
     = Returns (page_of coll q n)) ->
  (1 <= fuel)%nat ->
  pulls (length coll + S k) fuel (__iter__ (AtlasPagination_init a m 1 n)) w
  = ((Yield <$> coll) ++ replicate (S k) StopIteration,
     mkGenerator (AtlasPagination_init a m 1 n) Closed,
     w ++ ((fun q => page_request m q n) <$>
             seqZ 1 (expected_fetches (Z.of_nat (length coll)) n))).
Proof.
  intros Hn Hcheck Hnet Hfuel.
  assert (Hcall : forall w q,
             1 <= q <= expected_fetches (Z.of_nat (length coll)) n ->
             call m q n w
             = (Returns (page_of coll q n), w ++ [page_request m q n])).
  { intros w' q Hq. by rewrite call_bound_passes, Hnet. }
  pose proof (traverse_from_call coll n m
                (fun w q => w ++ [page_request m q n]) Hn Hcall
                (length coll) 1
                (__iter__ (AtlasPagination_init a m 1 n)) (1 * n) w k fuel)
    as Htr.
  replace ((1 - 1) * n) with 0 in Htr by lia.
  rewrite Z.sub_0_r in Htr. simpl drop in Htr.
  rewrite foldl_requests in Htr.
  pose proof (expected_fetches_pos n (Z.of_nat (length coll))).
  apply Htr;
    first [done | lia | apply (enters_created (AtlasPagination_init a m 1 n))].
Qed.

(** X8.  [is_existing_cluster] always sends exactly one GET, that of the
    cluster.  It returns [True] when the transport answers and [False] when
    the transport raises [ErrAtlasNotFound]; any other error of the
    transport reaches the caller as it is, and [ErrAtlasNotFound] never
    does. *)
Theorem is_existing_cluster_outcomes a cluster w :
  let r := mkRequest GET
             (BASE_URL ++ percent (api_resources "Clusters" "Get a Single Cluster")
                            [AStr (group a); AStr cluster])
             None in
  (is_existing_cluster a cluster w).2 = w ++ [r]
  /\ ((is_existing_cluster a cluster w).1 = Returns true
      <-> exists payload, respond (network a) w r = Returns payload)
  /\ ((is_existing_cluster a cluster w).1 = Returns false
      <-> exists e, respond (network a) w r = Raises e
                    /\ is_ErrAtlasNotFound e = true)
  /\ forall e, (is_existing_cluster a cluster w).1 = Raises e ->
               respond (network a) w r = Raises e
               /\ is_ErrAtlasNotFound e = false.
Proof.
  intros r.
  unfold is_existing_cluster, get_a_single_cluster, Network_get, Network_request.
  fold r. destruct (respond (network a) w r) as [payload|e0]; simpl.
  - split_and!; [done| |split|done].
    + split; [by eexists|done].
    + done.
    + by intros (e & He & _).
  - destruct (is_ErrAtlasNotFound e0) eqn:He0; simpl.
    + split_and!; [done|split|split|done].
      * done.
      * by intros (p & Hp).
      * by exists e0.
      * done.
    + split_and!; [done|split|split|].
      * done.
      * by intros (p & Hp).
      * done.
      * intros (e & [= ->] & He). congruence.
      * by intros e [= ->].
Qed.

End MoreResourceFacts.

(** * The status filter of the alerts, on every page *)

Section AlertsTraversal.
Context {Item : Type} `{!Settings}.
Implicit Types (a : Atlas Item) (w : calls) (m : bound_method Item).

Lemma checkAndRaise_inside p n w :
  itemsPerPageMin <= n <= itemsPerPageMax ->
  checkAndRaise p n w = (Returns tt, w).
Proof.
  intros Hin. unfold checkAndRaise.
  destruct (Z.ltb_spec n itemsPerPageMin), (Z.ltb_spec itemsPerPageMax n);
    simpl; (done || lia).
Qed.

(** With a status that is not empty, the page request of the alerts'
    binding is the one with the status. *)
Lemma alerts_page_request_eq a s q n :
  s <> "" ->
  page_request (AlertsGetAll_fetch a (Some s)) q n = alerts_page_request a s q n.
Proof.
  intros Hs. unfold page_request, alerts_page_request. simpl.
  by apply String.eqb_neq in Hs as ->.
Qed.

(** The transport's record only grows. *)
Lemma fetch_loop_appends fuel (self : AtlasPagination Item (bound_method Item))
    p total w :
  exists more, (fetch_loop fuel self p total w).2 = w ++ more.
Proof.
  revert p total w. induction fuel as [|fuel IH]; intros p total w; simpl.
  - exists []. rewrite app_nil_r. by destruct (_ <? _).
  - destruct (_ <? _); [|exists []; by rewrite app_nil_r].
    destruct (call_bound_method (fetch self) p (itemsPerPage self) w) as [->| ->].
    { exists []. by rewrite app_nil_r. }
    destruct (respond _ _ _) as [details|e]; [|by eexists].
    destruct (totalCount details); [|by eexists].
    destruct (results details) as [rs|]; [|by eexists].
    destruct (page_loop _ _ _ _ _) as [[r fr]|]; [by eexists|].
    destruct (IH (p + 1) z (w ++ [page_request (fetch self) p (itemsPerPage self)]))
      as [more Hmore].
    eexists. by rewrite Hmore, <- app_assoc.
Qed.

Lemma next_appends fuel (g : generator Item (bound_method Item)) w :
  exists more, (next fuel g w).2 = w ++ more.
Proof.
  unfold next. destruct (gi_frame g) as [|p t rs c i|]; simpl.
  - destruct (fetch_loop_appends fuel (gi_self g) (pageNum (gi_self g))
                (pageNum (gi_self g) * itemsPerPage (gi_self g)) w)
      as [more Hmore].
    exists more. by destruct (fetch_loop _ _ _ _ _) as [[[r s] fr] w'].
  - destruct (page_loop _ _ _ _ _) as [[r fr]|].
    + exists []. by rewrite app_nil_r.
    + destruct (fetch_loop_appends fuel (gi_self g) (p + 1) t w) as [more Hmore].
      exists more. by destruct (fetch_loop _ _ _ _ _) as [[[r s] fr] w'].
  - exists []. by rewrite app_nil_r.
Qed.

Lemma pulls_appends k fuel : forall (g : generator Item (bound_method Item)) w,
  exists more, (pulls k fuel g w).2 = w ++ more.
Proof.
  induction k as [|k IH]; intros g w.
  - exists []. by rewrite app_nil_r.
  - rewrite pulls_S.
    destruct (next_appends fuel g w) as [more1 H1].
    destruct (next fuel g w) as [[r g'] w']. simpl in H1.
    destruct (IH g' w') as [more2 H2].
    destruct (pulls k fuel g' w') as [[rs g''] w'']. simpl in *.
    exists (more1 ++ more2). by rewrite H2, H1, app_assoc.
Qed.

(** With the page size within the limits and at least 1, the first pull
    sends the request of the starting page before anything else. *)
Lemma first_pull_requests m a p n fuel w :
  1 <= n -> itemsPerPageMin <= n <= itemsPerPageMax ->
  exists more,
    (next (S fuel) (__iter__ (AtlasPagination_init a m p n)) w).2
    = w ++ page_request m p n :: more.
Proof.
  intros Hn Hin. set (self := AtlasPagination_init a m p n).
  rewrite (enters_created self). simpl.
  destruct (Z.ltb_spec (p * n - p * n) n); [|lia].
  rewrite (call_bound_passes m p n w) by by apply checkAndRaise_inside.
  destruct (respond _ _ _) as [details|e]; [|by exists []].
  destruct (totalCount details); [|by exists []].
  destruct (results details) as [rs|]; [|by exists []].
  destruct (page_loop _ _ _ _ _) as [[r fr]|]; [by exists []|].
  destruct (fetch_loop_appends fuel self (p + 1) z (w ++ [page_request m p n]))
    as [more Hmore].
  exists more.
  destruct (fetch_loop _ _ _ _ _) as [[[r s] fr] w']. simpl in *.
  by rewrite Hmore, <- app_assoc.
Qed.

Lemma pulls_requests_ok k fuel :
  forall (g : generator Item (bound_method Item)) w0 w,
  requests_ok w0 (fetch (gi_self g)) (pageNum (gi_self g))
    (itemsPerPage (gi_self g)) (gi_frame g) w ->
  exists j : nat,
    (pulls k fuel g w).2
    = w0 ++ page_requests (fetch (gi_self g)) (pageNum (gi_self g))
              (itemsPerPage (gi_self g)) j.
Proof.
  induction k as [|k IH]; intros g w0 w Hok.
  - destruct Hok as (j & -> & _). by exists j.
  - rewrite pulls_S.
    pose proof (next_requests_ok fuel g w0 w Hok) as Hnext.
    pose proof (next_self fuel g w) as Hs.
    destruct (next fuel g w) as [[r g'] w']. simpl in Hnext, Hs.
    rewrite <- Hs in Hnext. destruct (IH g' w0 w' Hnext) as [j Hj].
    exists j. rewrite <- Hs.
    by destruct (pulls k fuel g' w') as [[rs g''] w''].
Qed.

(** C8.  A traversal of the alerts built with the status filter [s].
    Whatever the transport answers, the requests it has received from the
    traversal after any number of pulls are those of consecutive pages from
    the starting page on, each with that same [s] in the status position of
    the "with status" template (and the same page size); and with the page
    size within the limits there is at least one as soon as one pull has
    been made.  When the transport serves a collection page by page at
    those requests, the traversal yields the whole collection and the
    requests are exactly those of pages [1 .. expected_fetches], every one
    of them with [s]. *)
Theorem alerts_status_on_every_fetch a s p n k fuel w :
  s <> "" ->
  (exists j : nat,
      (pulls k fuel (__iter__ (AlertsGetAll a (Some s) p n)) w).2
      = w ++ ((fun q => alerts_page_request a s q n) <$> seqZ p (Z.of_nat j))
      /\ (1 <= n -> itemsPerPageMin <= n <= itemsPerPageMax ->
          (1 <= k)%nat -> (1 <= fuel)%nat -> (1 <= j)%nat))
  /\ forall coll : list Item,
       1 <= n -> itemsPerPageMin <= n <= itemsPerPageMax -> (1 <= fuel)%nat ->
       (forall log q,
          1 <= q <= expected_fetches (Z.of_nat (length coll)) n ->
          respond (network a) log (alerts_page_request a s q n)
          = Returns (page_of coll q n)) ->
       pulls (length coll + S k) fuel
         (__iter__ (AlertsGetAll a (Some s) 1 n)) w
       = ((Yield <$> coll) ++ replicate (S k) StopIteration,
          mkGenerator (AlertsGetAll a (Some s) 1 n) Closed,
          w ++ ((fun q => alerts_page_request a s q n) <$>
                  seqZ 1 (expected_fetches (Z.of_nat (length coll)) n))).
Proof.
  intros Hs. set (m := AlertsGetAll_fetch a (Some s)).
  assert (Hreq : forall l : list Z,
             (fun q => page_request m q n) <$> l
             = (fun q => alerts_page_request a s q n) <$> l).
  { intros l. apply list_fmap_ext. intros i q _.
    by apply alerts_page_request_eq. }
  split.
  - destruct (pulls_requests_ok k fuel (__iter__ (AlertsGetAll a (Some s) p n))
                w w) as [j Hj].
    { exists 0%nat. split; [|done].
      unfold page_requests. simpl. by rewrite app_nil_r. }
    exists j. split.
    { rewrite Hj. unfold page_requests. simpl. by rewrite <- Hreq. }
    intros Hn Hin Hk Hfuel.
    destruct k as [|k]; [lia|]. destruct fuel as [|fuel]; [lia|].
    destruct j as [|j]; [|lia]. exfalso.
    rewrite pulls_S in Hj.
    destruct (first_pull_requests m a p n fuel w Hn Hin) as [more1 H1].
    fold (AlertsGetAll a (Some s) p n) in H1.
    destruct (next _ _ _) as [[r g'] w'] in Hj, H1. simpl in H1.
    destruct (pulls_appends k (S fuel) g' w') as [more2 H2].
    destruct (pulls k (S fuel) g' w') as [[rs g''] w'']. simpl in Hj, H2.
    rewrite H2, H1, <- app_assoc in Hj.
    by apply app_inv_head in Hj.
  - intros coll Hn Hin Hfuel Hnet.
    assert (Hcall : forall w q,
               1 <= q <= expected_fetches (Z.of_nat (length coll)) n ->
               call m q n w
               = (Returns (page_of coll q n), w ++ [page_request m q n])).
    { intros w' q Hq.
      rewrite call_bound_passes by by apply checkAndRaise_inside.
      unfold m. rewrite alerts_page_request_eq by done.
      simpl method_atlas. by rewrite (Hnet w' q Hq). }
    pose proof (traverse_from_call coll n m
                  (fun w q => w ++ [page_request m q n]) Hn Hcall
                  (length coll) 1
                  (__iter__ (AlertsGetAll a (Some s) 1 n)) (1 * n) w k fuel)
      as Htr.
    replace ((1 - 1) * n) with 0 in Htr by lia.
    rewrite Z.sub_0_r in Htr. simpl drop in Htr.
    rewrite foldl_requests, Hreq in Htr.
    pose proof (expected_fetches_pos n (Z.of_nat (length coll))).
    apply Htr;
      first [done | lia | apply (enters_created (AlertsGetAll a (Some s) 1 n))].
Qed.

End AlertsTraversal.

(** * Further properties of the alerts and projects operations *)

Lemma ymd2ord_century y m d :
  1 <= y -> 1 <= m <= 12 -> 1 <= d <= days_in_month y m ->
  36524
  <= ymd2ord (y + 100) m (Z.min (days_in_month (y + 100) m) d) - ymd2ord y m d
  <= 36525.
Proof.
  intros Hy Hm Hd.
  destruct (monthrange_days_eq y m Hm) as [_ Hpos].
  unfold ymd2ord, days_before_month, days_in_month, days_before_year, is_leap in *.
  cbv zeta.
  assert ((y + 100) mod 4 = y mod 4) as -> by (Z.div_mod_to_equations; lia).
  assert ((y + 100) mod 100 = y mod 100) as -> by (Z.div_mod_to_equations; lia).
  set (DBM := item DAYS_BEFORE_MONTH m).
  assert (Hdim : m = 2 -> item DAYS_IN_MONTH m = 28) by (by intros ->).
  set (DIM := item DAYS_IN_MONTH m) in *.
  destruct (Z.eqb_spec m 2) as [Hm2|Hm2]; [specialize (Hdim Hm2)|clear Hdim];
    destruct (Z.ltb_spec 2 m); try lia;
    destruct (Z.eqb_spec (y mod 4) 0), (Z.eqb_spec (y mod 100) 0),
      (Z.eqb_spec (y mod 400) 0), (Z.eqb_spec ((y + 100) mod 400) 0);
    simpl in *; Z.div_mod_to_equations; lia.
Qed.

(** Adding days that lead out of the calendar overflows. *)
Lemma datetime_add_days_overflow (self : datetime) k :
  valid_datetime self = true ->
  toordinal self + k <= 0 \/ MAXORDINAL < toordinal self + k ->
  datetime_add self (timedelta k 0 0 0 0) = Raises OverflowError.
Proof.
  intros Hv Hord. apply valid_datetime_fields in Hv as (_ & Hh & Hmi & Hs & Hus).
  unfold datetime_add, timedelta_add, timedelta. cbv zeta. simpl.
  set (N := toordinal self) in *.
  set (s := second self + minute self * 60 + hour self * 3600) in *.
  rewrite !Z.add_0_r.
  assert (Hus0 : microsecond self / 1000000 = 0)
    by (Z.div_mod_to_equations; lia).
  assert (Hus1 : microsecond self mod 1000000 = microsecond self)
    by (Z.div_mod_to_equations; lia).
  assert (Hs0 : s / 86400 = 0) by (unfold s; Z.div_mod_to_equations; lia).
  assert (Hs1 : s mod 86400 = s) by (unfold s; Z.div_mod_to_equations; lia).
  rewrite ?Hus0, ?Hus1, ?Z.add_0_r, ?Hs0, ?Hs1, ?Z.add_0_r.
  rewrite ?Hus0, ?Hus1, ?Z.add_0_r, ?Hs0, ?Hs1, ?Z.add_0_r.
  destruct (Z.ltb_spec 0 (N + k)); [|done].
  destruct (Z.leb_spec (N + k) MAXORDINAL); [lia|done].
Qed.

Section MoreAlerts.
Context {Item : Type} `{!Settings}.
Implicit Types (a : Atlas Item) (w : calls).

(** X9.  The body [acknowledge_an_alert] sends: [acknowledgedUntil] with
    the timestamp, and [acknowledgementComment] with the comment only when
    there is a comment that is not empty; a comment of [None] or [""] is
    left out, and the body has no other key. *)
Theorem acknowledge_an_alert_body a alert until comment w :
  let url := (BASE_URL ++ percent (api_resources "Alerts" "Acknowledge an Alert")
                            [AStr (group a); AStr alert])%string in
  exists data,
    acknowledge_an_alert a alert until comment w
    = (respond (network a) w (mkRequest PATCH url (Some data)),
       w ++ [mkRequest PATCH url (Some data)])
    /\ data !! "acknowledgedUntil" = Some (isoformat_seconds until)
    /\ data !! "acknowledgementComment"
       = match comment with
         | Some c => if decide (c = "") then None else Some c
         | None => None
         end
    /\ forall key, key <> "acknowledgedUntil" ->
                   key <> "acknowledgementComment" -> data !! key = None.
Proof.
  intros url. unfold acknowledge_an_alert, Network_patch, Network_request.
  fold url. eexists. split; [reflexivity|].
  destruct comment as [c|]; simpl.
  - destruct (decide (c = "")) as [->|Hc]; simpl.
    + split_and!; [done..|]. intros key Hk _. by rewrite lookup_singleton_ne.
    + apply String.eqb_neq in Hc as ->. simpl. split_and!.
      * by rewrite lookup_insert_ne, lookup_singleton_eq.
      * by rewrite lookup_insert_eq.
      * intros key Hk1 Hk2.
        by rewrite lookup_insert_ne, lookup_singleton_ne.
  - split_and!; [done..|]. intros key Hk _. by rewrite lookup_singleton_ne.
Qed.

(** X10.  The body [create_a_project] posts: [name], and [orgId] only when
    one is given that is not empty; nothing else.  The URI is the template
    itself, not filled with anything. *)
Theorem create_a_project_body a name orgId w :
  let url := (BASE_URL ++ api_resources "Projects" "Create a Project")%string in
  exists project,
    create_a_project a name orgId w
    = (respond (network a) w (mkRequest POST url (Some project)),
       w ++ [mkRequest POST url (Some project)])
    /\ project !! "name" = Some name
    /\ project !! "orgId"
       = match orgId with
         | Some o => if decide (o = "") then None else Some o
         | None => None
         end
    /\ forall key, key <> "name" -> key <> "orgId" -> project !! key = None.
Proof.
  intros url. unfold create_a_project, Network_post, Network_request.
  fold url. eexists. split; [reflexivity|].
  destruct orgId as [o|]; simpl.
  - destruct (decide (o = "")) as [->|Ho]; simpl.
    + split_and!; [done..|]. intros key Hk _. by rewrite lookup_singleton_ne.
    + apply String.eqb_neq in Ho as ->. simpl. split_and!.
      * by rewrite lookup_insert_ne, lookup_singleton_eq.
      * by rewrite lookup_insert_eq.
      * intros key Hk1 Hk2.
        by rewrite lookup_insert_ne, lookup_singleton_ne.
  - split_and!; [done..|]. intros key Hk _. by rewrite lookup_singleton_ne.
Qed.

(** X11.  At the ends of the calendar nothing is sent.  With the clock in a
    year from which a hundred years on is past year 9999,
    [acknowledge_an_alert_forever] raises [ValueError]; with the clock on
    the first day of year 1, [unacknowledge_an_alert] raises
    [OverflowError].  In both cases the transport gets no call. *)
Theorem mute_until_out_of_calendar a alert comment now w :
  valid_datetime now = true ->
  (MAXYEAR < year now + 100 ->
   acknowledge_an_alert_forever a alert comment now w = (Raises ValueError, w))
  /\ (toordinal now = 1 ->
      unacknowledge_an_alert a alert now w = (Raises OverflowError, w)).
Proof.
  intros Hv.
  pose proof (valid_datetime_fields now Hv)
    as ((Hyr & Hm & Hd) & Hh & Hmi & Hs & Hus).
  split.
  - intros Hy.
    unfold acknowledge_an_alert_forever, bind, lift, relativedelta_add.
    simpl. unfold replace_date, check_date_fields.
    destruct (Z.leb_spec (year now + 100) MAXYEAR); [lia|].
    by rewrite !andb_false_r.
  - intros Hord.
    destruct (monthrange_days_eq (year now) (month now) Hm) as [Hmr Hpos].
    unfold unacknowledge_an_alert, bind, lift, relativedelta_rsub,
      relativedelta_add.
    simpl. rewrite Z.add_0_r, Hmr, Z.min_r by lia.
    unfold replace_date.
    rewrite check_date_fields_true by (try done; lia).
    assert (mkDatetime (year now) (month now) (day now) (hour now) (minute now)
              (second now) (microsecond now) (tzinfo now) = now) as ->
        by by destruct now.
    change (timedelta (- (1)) (- 0) (- 0) (- 0) (- 0))
      with (timedelta (-1) 0 0 0 0).
    by rewrite (datetime_add_days_overflow now (-1) Hv) by lia.
Qed.

(** X12.  "100 years in the future": the timestamp
    [acknowledge_an_alert_forever] sends is that of [now] moved on by 36524
    or 36525 whole days, to the second. *)
Theorem forever_is_a_century_ahead a alert comment now w :
  valid_datetime now = true -> year now + 100 <= MAXYEAR ->
  exists until,
    acknowledge_an_alert_forever a alert comment now w
    = acknowledge_an_alert a alert until comment w
    /\ valid_datetime until = true
    /\ 36524 * 86400 <= utc_seconds until - utc_seconds now <= 36525 * 86400
    /\ (utc_seconds until - utc_seconds now) mod 86400 = 0.
Proof.
  intros Hv Hy.
  pose proof (valid_datetime_fields now Hv)
    as ((Hyr & Hm & Hd) & Hh & Hmi & Hs & Hus).
  exists (forever_until now).
  unfold acknowledge_an_alert_forever, bind, lift.
  rewrite (relativedelta_add_years_100 now Hv Hy).
  destruct (monthrange_days_eq (year now + 100) (month now) Hm) as [_ Hpos].
  pose proof (ymd2ord_century (year now) (month now) (day now)
                ltac:(lia) Hm Hd) as Hc.
  split; [done|]. split; [|split].
  - unfold valid_datetime, forever_until. simpl.
    rewrite check_date_fields_true by (try done; lia).
    unfold check_time_fields. rewrite !andb_true_iff, !Z.leb_le. lia.
  - unfold utc_seconds, toordinal, forever_until. simpl. lia.
  - unfold utc_seconds, toordinal, forever_until. simpl.
    Z.div_mod_to_equations. lia.
Qed.

End MoreAlerts.

(** * The properties at concrete inputs *)

#[local] Existing Instance example_Settings.

(** 25 items in pages of 10: three fetches; 5 items in pages of 5: one. *)
Lemma traversal_yields_collection_witness :
  pulls (25 + 1) 1
    (__iter__ (AtlasPagination_init example_atlas (paged (seq 0 25)) 1 10)) []
  = ((Yield <$> seq 0 25) ++ [StopIteration],
     mkGenerator (AtlasPagination_init example_atlas (paged (seq 0 25)) 1 10)
       Closed,
     [(1, 10); (2, 10); (3, 10)])
  /\ pulls (5 + 1) 1
       (__iter__ (AtlasPagination_init example_atlas (paged (seq 0 5)) 1 5)) []
     = ((Yield <$> seq 0 5) ++ [StopIteration],
        mkGenerator (AtlasPagination_init example_atlas (paged (seq 0 5)) 1 5)
          Closed,
        [(1, 5)]).
Proof.
  split.
  - apply (traversal_yields_collection (seq 0 25) 10 (paged (seq 0 25))
             ltac:(lia) (fun _ _ _ => eq_refl) example_atlas 0 1 []).
    lia.
  - apply (traversal_yields_collection (seq 0 5) 5 (paged (seq 0 5))
             ltac:(lia) (fun _ _ _ => eq_refl) example_atlas 0 1 []).
    lia.
Defined.

(** Ten items, then the failure of page 2, then nothing. *)
Lemma failure_on_second_page_witness :
  pulls (10 + 3) 2
    (__iter__ (AtlasPagination_init example_atlas failing_second_page 1 10)) []
  = ((Yield <$> seq 0 10)
       ++ [Raise ErrPagination; StopIteration; StopIteration],
     mkGenerator (AtlasPagination_init example_atlas failing_second_page 1 10)
       Closed,
     [(1, 10); (2, 10)]).
Proof.
  apply (failure_on_second_page failing_second_page example_atlas 10 25
           (seq 0 10) (Exception "ErrAtlasNotFound") [] 2 2).
  - lia.
  - lia.
  - lia.
  - reflexivity.
  - reflexivity.
Defined.

(** A payload without [totalCount] comes out as a [KeyError], which is not
    [ErrPagination]. *)
Lemma malformed_payload_raises_KeyError :
  exists e,
    (next 1 (__iter__ (AtlasPagination_init example_atlas malformed_page 1 3))
       []).1.1
    = Raise e
    /\ e <> ErrPagination.
Proof. exists (KeyError "totalCount"). split; [reflexivity|discriminate]. Qed.

(** A failing fetch comes out as [ErrPagination]. *)
Lemma fetch_failure_surfaces_witness :
  fetch_loop 1 (AtlasPagination_init example_atlas unreachable 1 10) 1 10 []
  = (Raise ErrPagination, AtlasPagination_init example_atlas unreachable 1 10,
     Closed, [(1, 10)]).
Proof.
  assert (Hlt : 1 * 10 - 10 < 10) by lia.
  exact (fetch_failure_surfaces 0
           (AtlasPagination_init example_atlas unreachable 1 10) 1 10 [] Hlt).
Defined.

(** Behind the last item of a traversal of 5 items in pages of 5. *)
Lemma exhausted_stays_exhausted_witness :
  let g := mkGenerator (AtlasPagination_init example_atlas (paged (seq 0 5)) 1 5)
             (Suspended 1 5 (seq 0 5) 5 5) in
  (next 1 g [(1, 5)]).1.1 = StopIteration
  /\ pulls 3 1 (next 1 g [(1, 5)]).1.2 (next 1 g [(1, 5)]).2
     = (replicate 3 StopIteration, (next 1 g [(1, 5)]).1.2, [(1, 5)]).
Proof.
  split; [reflexivity|].
  apply (exhausted_stays_exhausted 1
           (mkGenerator (AtlasPagination_init example_atlas (paged (seq 0 5)) 1 5)
              (Suspended 1 5 (seq 0 5) 5 5))
           [(1, 5)] 3 1).
  reflexivity.
Defined.

(** An empty collection: one fetch from page 1, three from page -2, and no
    item in either case. *)
Lemma first_fetch_unconditional_witness :
  pulls 3 1 (__iter__ (AtlasPagination_init example_atlas (paged []) 1 10)) []
  = (replicate 3 StopIteration,
     mkGenerator (AtlasPagination_init example_atlas (paged []) 1 10) Closed,
     [(1, 10)])
  /\ pulls 3 3 (__iter__ (AtlasPagination_init example_atlas (paged []) (-2) 10)) []
     = (replicate 3 StopIteration,
        mkGenerator (AtlasPagination_init example_atlas (paged []) (-2) 10) Closed,
        [(-2, 10); (-1, 10); (0, 10)]).
Proof.
  split.
  - apply (proj1 (proj2 (first_fetch_unconditional (paged []) example_atlas
                           1 10 [] 0 ltac:(lia)))).
    + lia.
    + reflexivity.
  - apply (proj2 (proj2 (first_fetch_unconditional (paged []) example_atlas
                           (-2) 10 [] 2 ltac:(lia)))).
    + lia.
    + intros q log' Hq.
      assert (q = -2 \/ q = -1 \/ q = 0) as [->|[->| ->]] by lia; reflexivity.
    + simpl. lia.
Defined.

(** From page -1 an empty collection is fetched twice: pages -1 and 0. *)
Lemma negative_page_fetches_twice :
  pulls 1 2 (__iter__ (AtlasPagination_init example_atlas (paged []) (-1) 10)) []
  = ([StopIteration],
     mkGenerator (AtlasPagination_init example_atlas (paged []) (-1) 10) Closed,
     [(-1, 10); (0, 10)]).
Proof. reflexivity. Qed.

(** 501 items per page where 500 is the most. *)
Lemma out_of_limits_no_call_witness :
  get_all_clusters example_atlas 1 501 true []
  = (Raises ErrPaginationLimits, [])
  /\ get_all_whitelist_entries example_atlas 1 501 true []
     = (Raises ErrPaginationLimits, [])
  /\ get_all_database_users example_atlas 1 501 true []
     = (Raises ErrPaginationLimits, [])
  /\ get_all_projects example_atlas 1 501 true []
     = (Raises ErrPaginationLimits, [])
  /\ get_all_alerts example_atlas (Some "OPEN") 1 501 true []
     = (Raises ErrPaginationLimits, []).
Proof.
  apply (out_of_limits_no_call example_atlas (Some "OPEN") 1 501 true []).
  right. simpl. lia.
Defined.

(** Deleting a database user goes to the transport with no confirmation
    asked. *)
Lemma database_user_delete_sends :
  exists r,
    (delete_a_database_user example_atlas "alice" []).2 = [r]
    /\ verb r = DELETE
    /\ forall message,
        (delete_a_database_user example_atlas "alice" []).1
        <> Raises (ErrConfirmationRequested message).
Proof.
  eexists. split; [reflexivity|]. split; [reflexivity|].
  intros message. discriminate.
Qed.

(** Open alerts: from page 4 over a transport with nothing, and 25 of them
    in pages of 10. *)
Lemma alerts_status_on_every_fetch_witness :
  (exists j : nat,
      (pulls 3 1 (__iter__ (AlertsGetAll example_atlas (Some "OPEN") 4 100)) []).2
      = [] ++ ((fun q => alerts_page_request example_atlas "OPEN" q 100)
                 <$> seqZ 4 (Z.of_nat j))
      /\ (1 <= j)%nat)
  /\ pulls (25 + 1) 1 (__iter__ (AlertsGetAll alerts_atlas (Some "OPEN") 1 10)) []
     = ((Yield <$> seq 0 25) ++ [StopIteration],
        mkGenerator (AlertsGetAll alerts_atlas (Some "OPEN") 1 10) Closed,
        [mkRequest GET
           "https://cloud.mongodb.com/Alerts/Get All Alerts with status?5a0a1e7e0f2912c554080adc&OPEN&1&10"
           None;
         mkRequest GET
           "https://cloud.mongodb.com/Alerts/Get All Alerts with status?5a0a1e7e0f2912c554080adc&OPEN&2&10"
           None;
         mkRequest GET
           "https://cloud.mongodb.com/Alerts/Get All Alerts with status?5a0a1e7e0f2912c554080adc&OPEN&3&10"
           None]).
Proof.
  split.
  - destruct (proj1 (alerts_status_on_every_fetch example_atlas "OPEN" 4 100
                       3 1 [] ltac:(discriminate))) as (j & Hj & Hpos).
    exists j. split; [exact Hj|].
    apply Hpos; simpl; lia.
  - apply (proj2 (alerts_status_on_every_fetch alerts_atlas "OPEN" 1 10
                    0 1 [] ltac:(discriminate)) (seq 0 25)).
    + lia.
    + simpl. lia.
    + lia.
    + intros log q Hq.
      change (expected_fetches (Z.of_nat (length (seq 0 25))) 10) with 3 in Hq.
      assert (q = 1 \/ q = 2 \/ q = 3) as [->|[->| ->]] by lia; reflexivity.
Defined.

(** Muting on 4 November 2026 at 08:05:09.123456 UTC. *)
Lemma mute_until_timestamps_witness :
  (exists data,
      (acknowledge_an_alert_forever example_atlas "533dc40ae4b00835ff81eaee"
         None example_now []).2
      = [mkRequest PATCH
           (BASE_URL ++ percent (api_resources "Alerts" "Acknowledge an Alert")
                          [AStr (group example_atlas);
                           AStr "533dc40ae4b00835ff81eaee"])
           (Some data)]
      /\ data !! "acknowledgedUntil" = Some "2126-11-04T08:05:09+00:00")
  /\ (exists until data,
        (unacknowledge_an_alert example_atlas "533dc40ae4b00835ff81eaee"
           example_now []).2
        = [mkRequest PATCH
             (BASE_URL ++ percent (api_resources "Alerts" "Acknowledge an Alert")
                            [AStr (group example_atlas);
                             AStr "533dc40ae4b00835ff81eaee"])
             (Some data)]
        /\ data !! "acknowledgedUntil" = Some (isoformat_seconds until)
        /\ valid_datetime until = true
        /\ tzinfo until = Some timezone_utc
        /\ utc_seconds until = utc_seconds example_now - 86400).
Proof.
  pose proof (mute_until_timestamps example_atlas "533dc40ae4b00835ff81eaee"
                None example_now [] eq_refl eq_refl) as [Hforever Hun].
  split.
  - apply Hforever. vm_compute. discriminate.
  - apply Hun. reflexivity.
Defined.

(** ** The further properties at concrete inputs *)

(** A page size of 0. *)
Lemma no_fetch_without_page_size_witness :
  pulls 3 1 (__iter__ (AtlasPagination_init example_atlas (paged (seq 0 5)) 1 0)) []
  = (replicate 3 StopIteration,
     mkGenerator (AtlasPagination_init example_atlas (paged (seq 0 5)) 1 0) Closed,
     []).
Proof.
  apply (no_fetch_without_page_size
           (AtlasPagination_init example_atlas (paged (seq 0 5)) 1 0) 2 1 []).
  simpl. lia.
Defined.

(** 25 items in pages of 10, from page 2: items 10 to 24, pages 2 and 3. *)
Lemma traversal_from_page_witness :
  pulls (15 + 1) 1
    (__iter__ (AtlasPagination_init example_atlas (paged (seq 0 25)) 2 10)) []
  = ((Yield <$> seq 10 15) ++ [StopIteration],
     mkGenerator (AtlasPagination_init example_atlas (paged (seq 0 25)) 2 10)
       Closed,
     [(2, 10); (3, 10)]).
Proof.
  apply (traversal_from_page (seq 0 25) 10 (paged (seq 0 25)) example_atlas
           2 0 1 []).
  - lia.
  - intros log p Hp. reflexivity.
  - lia.
  - lia.
Defined.

(** The failure of page 2 is the eleventh pull; two pulls follow it. *)
Lemma traversal_raises_once_witness :
  (forall j, (10 < j < 13)%nat ->
     (pulls 13 2
        (__iter__ (AtlasPagination_init example_atlas failing_second_page 1 10))
        []).1.1 !! j
     = Some StopIteration)
  /\ (pulls 13 2
        (__iter__ (AtlasPagination_init example_atlas failing_second_page 1 10))
        []).1.2
     = mkGenerator (AtlasPagination_init example_atlas failing_second_page 1 10)
         Closed
  /\ (pulls 13 2
        (__iter__ (AtlasPagination_init example_atlas failing_second_page 1 10))
        []).2
     = (pulls 11 2
          (__iter__ (AtlasPagination_init example_atlas failing_second_page 1 10))
          []).2.
Proof.
  apply (traversal_raises_once
           (AtlasPagination_init example_atlas failing_second_page 1 10)
           13 2 [] 10 ErrPagination).
  reflexivity.
Defined.

(** 25 clusters in pages of 10, through the transport. *)
Lemma traversal_through_transport_witness :
  pulls (25 + 1) 1 (__iter__ (ClustersGetAll serving_atlas 1 10)) []
  = ((Yield <$> seq 0 25) ++ [StopIteration],
     mkGenerator (ClustersGetAll serving_atlas 1 10) Closed,
     [mkRequest GET (cluster_page_url 1) None;
      mkRequest GET (cluster_page_url 2) None;
      mkRequest GET (cluster_page_url 3) None]).
Proof.
  apply (traversal_through_transport (Clusters_get_all_clusters serving_atlas)
           serving_atlas (seq 0 25) 10 0 1 []).
  - lia.
  - intros q w. reflexivity.
  - intros log q Hq. change (expected_fetches (Z.of_nat (length (seq 0 25))) 10)
      with 3 in Hq.
    assert (q = 1 \/ q = 2 \/ q = 3) as [->|[->| ->]] by lia; reflexivity.
  - lia.
Defined.

(** Past year 9999, and before year 1. *)
Lemma mute_until_out_of_calendar_witness :
  acknowledge_an_alert_forever example_atlas "533dc40ae4b00835ff81eaee" None
    late_now []
  = (Raises ValueError, [])
  /\ unacknowledge_an_alert example_atlas "533dc40ae4b00835ff81eaee" first_now []
     = (Raises OverflowError, []).
Proof.
  split.
  - apply (proj1 (mute_until_out_of_calendar example_atlas
                    "533dc40ae4b00835ff81eaee" None late_now [] eq_refl)).
    unfold MAXYEAR. simpl. lia.
  - apply (proj2 (mute_until_out_of_calendar example_atlas
                    "533dc40ae4b00835ff81eaee" None first_now [] eq_refl)).
    reflexivity.
Defined.

(** From 4 November 2026: 36525 days on. *)
Lemma forever_is_a_century_ahead_witness :
  exists until,
    acknowledge_an_alert_forever example_atlas "533dc40ae4b00835ff81eaee" None
      example_now []
    = acknowledge_an_alert example_atlas "533dc40ae4b00835ff81eaee" until None []
    /\ valid_datetime until = true
    /\ 36524 * 86400 <= utc_seconds until - utc_seconds example_now
       <= 36525 * 86400
    /\ (utc_seconds until - utc_seconds example_now) mod 86400 = 0.
Proof.
  apply (forever_is_a_century_ahead example_atlas "533dc40ae4b00835ff81eaee"
           None example_now []).
  - reflexivity.
  - unfold MAXYEAR. simpl. lia.
Defined.

(** One item, an empty page, twelve items: all thirteen are yielded and
    pages 1 to 3 fetched, as for any content under [totalCount = 25]. *)
Lemma traversal_follows_totalCount_witness :
  pulls (13 + 1) 3 (__iter__ (AtlasPagination_init example_atlas ragged 1 10)) []
  = ((Yield <$> (100%nat :: seq 0 12)) ++ [StopIteration],
     mkGenerator (AtlasPagination_init example_atlas ragged 1 10) Closed,
     [(1, 10); (2, 10); (3, 10)]).
Proof.
  apply (traversal_follows_totalCount 10 25 ragged_pages ragged ltac:(lia)
           (fun _ _ => eq_refl) example_atlas 0 3 []).
  change (expected_fetches 25 10) with 3. lia.
Defined.

(** The last three items of a page of five. *)
Lemma page_in_hand_needs_no_fetch_witness :
  pulls (5 - 2) 1
    (mkGenerator (AtlasPagination_init example_atlas unreachable 1 5)
       (Suspended 1 5 (seq 0 5) 5 2))
    [(1, 5)]
  = (Yield <$> seq 2 3,
     mkGenerator (AtlasPagination_init example_atlas unreachable 1 5)
       (Suspended 1 5 (seq 0 5) 5 5),
     [(1, 5)]).
Proof.
  apply (page_in_hand_needs_no_fetch 1
           (AtlasPagination_init example_atlas unreachable 1 5) 1 5 (seq 0 5) 2
           [(1, 5)]).
  simpl. lia.
Defined.
